(** * The Workflow Manager of the voice assistant

    A shallow embedding of [workflow_manager.py]: the workflow state
    machine that resolves multi-turn utterances ("open Chrome", then
    "profile 1", then "YouTube", then "search for X").

    Python strings are modelled as [string] over the ASCII alphabet, on
    which [str.lower] and [str.strip] are the functions [lower] and
    [strip] below.  Wall-clock readings ([time.time()], a float in
    seconds) are modelled as exact rationals.  The methods of
    [WorkflowManager] mutate [self] and act on the outside world
    (clock, processes, the default web browser, the Context Store, the
    window list); they are written in a small state-and-exception monad
    over the pair of the manager object and the world. *)

From Stdlib Require Import String Ascii List Bool Arith ZArith QArith Lia Lqa.
From Stdlib Require Import Numbers.DecimalString.
Import ListNotations.

Close Scope Q_scope.
Open Scope nat_scope.
Open Scope string_scope.

(** ** Python strings *)

Module PyStr.

(** The double-quote character, which the launch command line embeds. *)
Definition dquote : string := String "034"%char EmptyString.

Definition is_upper (c : ascii) : bool :=
  let n := nat_of_ascii c in ((65 <=? n) && (n <=? 90))%nat.

Definition lower_char (c : ascii) : ascii :=
  if is_upper c then ascii_of_nat (nat_of_ascii c + 32) else c.

(** [s.lower()] *)
Fixpoint lower (s : string) : string :=
  match s with
  | EmptyString => EmptyString
  | String c s' => String (lower_char c) (lower s')
  end.

(** [c.isspace()] on ASCII: TAB, LF, VT, FF, CR, the four separators
    FS, GS, RS, US, and the blank. *)
Definition isspace (c : ascii) : bool :=
  let n := nat_of_ascii c in
  (((9 <=? n) && (n <=? 13)) || ((28 <=? n) && (n <=? 31)) || (n =? 32))%nat.

(** [s.lstrip()] *)
Fixpoint lstrip (s : string) : string :=
  match s with
  | EmptyString => EmptyString
  | String c s' => if isspace c then lstrip s' else s
  end.

(** [s.rstrip()] *)
Fixpoint rstrip (s : string) : string :=
  match s with
  | EmptyString => EmptyString
  | String c s' =>
      match rstrip s' with
      | EmptyString => if isspace c then EmptyString else String c EmptyString
      | r => String c r
      end
  end.

(** [s.strip()] *)
Definition strip (s : string) : string := rstrip (lstrip s).

(** [sub in s] *)
Fixpoint contains (sub s : string) : bool :=
  prefix sub s ||
  match s with
  | EmptyString => false
  | String _ s' => contains sub s'
  end.

(** [s.replace(old, new)] for one-character [old] and [new]. *)
Fixpoint replace (old new : ascii) (s : string) : string :=
  match s with
  | EmptyString => EmptyString
  | String c s' =>
      String (if Ascii.eqb c old then new else c) (replace old new s')
  end.

(** Truth value of an optional string: [None] and [""] are false. *)
Definition truthy (o : option string) : option string :=
  match o with
  | Some s => if s =? "" then None else Some s
  | None => None
  end.

(** How an f-string renders an optional string. *)
Definition fmt (o : option string) : string :=
  match o with
  | Some s => s
  | None => "None"
  end.

(** [str(n)] for a natural number. *)
Definition of_nat (n : nat) : string := NilEmpty.string_of_uint (Nat.to_uint n).

End PyStr.

(** ** Python dicts with string keys, as written in literals *)

Module PyDict.

Definition dict (V : Type) : Type := list (string * V).

(** [d.get(k)] *)
Fixpoint get {V : Type} (d : dict V) (k : string) : option V :=
  match d with
  | [] => None
  | (k', v) :: d' => if k' =? k then Some v else get d' k
  end.

(** [d.get(k, default)] *)
Definition get_default {V : Type} (d : dict V) (k : string) (default : V) : V :=
  match get d k with
  | Some v => v
  | None => default
  end.

Definition keys {V : Type} (d : dict V) : list string := map fst d.

End PyDict.

(** ** constants.py *)

Definition WEBSITE_URLS : PyDict.dict string :=
  [ ("youtube", "https://youtube.com");
    ("gmail", "https://gmail.com");
    ("google", "https://google.com");
    ("facebook", "https://facebook.com");
    ("twitter", "https://twitter.com");
    ("github", "https://github.com");
    ("reddit", "https://reddit.com");
    ("linkedin", "https://linkedin.com");
    ("whatsapp", "https://web.whatsapp.com");
    ("netflix", "https://netflix.com");
    ("stackoverflow", "https://stackoverflow.com") ].

(** ** The data model *)

Inductive WorkflowState : Type :=
| IDLE
| BROWSER_STARTING
| PROFILE_SELECTION
| BROWSER_READY
| SEARCHING
| VIDEO_PLAYING
| APP_OPENING.

Definition WorkflowState_eqb (a b : WorkflowState) : bool :=
  match a, b with
  | IDLE, IDLE
  | BROWSER_STARTING, BROWSER_STARTING
  | PROFILE_SELECTION, PROFILE_SELECTION
  | BROWSER_READY, BROWSER_READY
  | SEARCHING, SEARCHING
  | VIDEO_PLAYING, VIDEO_PLAYING
  | APP_OPENING, APP_OPENING => true
  | _, _ => false
  end.

(** [state.value] *)
Definition value (s : WorkflowState) : string :=
  match s with
  | IDLE => "idle"
  | BROWSER_STARTING => "browser_starting"
  | PROFILE_SELECTION => "profile_selection"
  | BROWSER_READY => "browser_ready"
  | SEARCHING => "searching"
  | VIDEO_PLAYING => "video_playing"
  | APP_OPENING => "app_opening"
  end.

(** [state in states] *)
Definition state_in (s : WorkflowState) (states : list WorkflowState) : bool :=
  existsb (WorkflowState_eqb s) states.

(** A multi-step plan. *)
Record Workflow : Type := mkWorkflow {
  name : string;
  steps : list string;
  current_step : nat;
  data : PyDict.dict string;
  created_at : Q
}.

(** [Workflow.next_step]: the step under the cursor and the advanced plan. *)
Definition next_step (wf : Workflow) : option string * Workflow :=
  if (current_step wf <? List.length (steps wf))%nat then
    (nth_error (steps wf) (current_step wf),
     mkWorkflow (name wf) (steps wf) (current_step wf + 1) (data wf) (created_at wf))
  else (None, wf).

(** [Workflow.is_complete] *)
Definition is_complete (wf : Workflow) : bool :=
  (List.length (steps wf) <=? current_step wf)%nat.

(** [Workflow.get_progress] *)
Definition get_progress (wf : Workflow) : string :=
  PyStr.of_nat (current_step wf) ++ "/" ++ PyStr.of_nat (List.length (steps wf)).

(** One entry of the Tab Directory. *)
Record Tab : Type := mkTab {
  title : string;
  window_id : string;
  browser : string
}.

(** The Tab Directory object, as far as [get_all_tabs] reads it. *)
Record BrowserTabManager : Type := mkBrowserTabManager {
  chrome_installed : bool;
  chromium_installed : bool;
  firefox_installed : bool;
  wmctrl_available : bool
}.

(** A handle on a spawned process. *)
Definition Process : Type := nat.

(** The fields of a [WorkflowManager] instance.  The Context Store it
    refers to lives in the world. *)
Record WorkflowManager : Type := mkWorkflowManager {
  tab_manager : option BrowserTabManager;
  state : WorkflowState;
  current_workflow : option Workflow;
  waiting_for : option string;
  browser_process : option Process;
  selected_profile : option string;
  current_url : option string;
  state_timeout : Q;
  state_started_at : option Q
}.

(** [WorkflowManager.__init__] *)
Definition init (tm : option BrowserTabManager) : WorkflowManager :=
  {| tab_manager := tm;
     state := IDLE;
     current_workflow := None;
     waiting_for := None;
     browser_process := None;
     selected_profile := None;
     current_url := None;
     state_timeout := 10;
     state_started_at := None |}.

(** Field assignments [self.f = v]. *)
Definition with_state (v : WorkflowState) (m : WorkflowManager) : WorkflowManager :=
  mkWorkflowManager (tab_manager m) v (current_workflow m) (waiting_for m)
    (browser_process m) (selected_profile m) (current_url m)
    (state_timeout m) (state_started_at m).

Definition with_current_workflow (v : option Workflow) (m : WorkflowManager) : WorkflowManager :=
  mkWorkflowManager (tab_manager m) (state m) v (waiting_for m)
    (browser_process m) (selected_profile m) (current_url m)
    (state_timeout m) (state_started_at m).

Definition with_waiting_for (v : option string) (m : WorkflowManager) : WorkflowManager :=
  mkWorkflowManager (tab_manager m) (state m) (current_workflow m) v
    (browser_process m) (selected_profile m) (current_url m)
    (state_timeout m) (state_started_at m).

Definition with_browser_process (v : option Process) (m : WorkflowManager) : WorkflowManager :=
  mkWorkflowManager (tab_manager m) (state m) (current_workflow m) (waiting_for m)
    v (selected_profile m) (current_url m)
    (state_timeout m) (state_started_at m).

Definition with_selected_profile (v : option string) (m : WorkflowManager) : WorkflowManager :=
  mkWorkflowManager (tab_manager m) (state m) (current_workflow m) (waiting_for m)
    (browser_process m) v (current_url m)
    (state_timeout m) (state_started_at m).

Definition with_current_url (v : option string) (m : WorkflowManager) : WorkflowManager :=
  mkWorkflowManager (tab_manager m) (state m) (current_workflow m) (waiting_for m)
    (browser_process m) (selected_profile m) v
    (state_timeout m) (state_started_at m).

Definition with_state_started_at (v : option Q) (m : WorkflowManager) : WorkflowManager :=
  mkWorkflowManager (tab_manager m) (state m) (current_workflow m) (waiting_for m)
    (browser_process m) (selected_profile m) (current_url m)
    (state_timeout m) v.

(** ** The outside world *)

(** A command handed to [subprocess.Popen]: one shell command line
    ([shell=True]) or an argument vector. *)
Inductive Command : Type :=
| Shell (cmdline : string)
| Exec (argv : list string).

(** What a call can do: return a value or raise an exception, of which
    the text is kept. *)
Inductive Outcome (A : Type) : Type :=
| Returned (a : A)
| Raised (e : string).

Arguments Returned {A} a.
Arguments Raised {A} e.

(** The world a call runs in.  [popen] and [terminate] say how the
    operating system answers; [launched], [terminated] and [opened] log
    what has been asked of it. *)
Record World : Type := mkWorld {
  clock : Q;
  current_task : option string;
  chrome_windows : list Tab;
  firefox_windows : list Tab;
  popen : Command -> Outcome Process;
  terminate : Process -> Outcome unit;
  launched : list Command;
  terminated : list Process;
  opened : list string
}.

(** ** Actions: state of [self], state of the world, exceptions *)

Definition Action (A : Type) : Type :=
  WorkflowManager -> World -> Outcome A * WorkflowManager * World.

Definition ret {A : Type} (a : A) : Action A :=
  fun m w => (Returned a, m, w).

Definition bind {A B : Type} (c : Action A) (k : A -> Action B) : Action B :=
  fun m w =>
    match c m w with
    | (Returned a, m', w') => k a m' w'
    | (Raised e, m', w') => (Raised e, m', w')
    end.

(** [try: body except Exception as e: handler]; what [body] changed
    before it raised stays changed. *)
Definition try_except {A : Type} (body : Action A) (handler : string -> Action A) : Action A :=
  fun m w =>
    match body m w with
    | (Returned a, m', w') => (Returned a, m', w')
    | (Raised e, m', w') => handler e m' w'
    end.

Declare Scope action_scope.
Delimit Scope action_scope with action.
Notation "x <- c ;; k" := (bind c (fun x => k))
  (at level 61, c at next level, right associativity) : action_scope.
Notation "c ;; k" := (bind c (fun _ => k))
  (at level 61, right associativity) : action_scope.
Open Scope action_scope.

(** The three components of a finished call. *)
Definition outcome_of {A : Type} (r : Outcome A * WorkflowManager * World) : Outcome A :=
  fst (fst r).
Definition manager_of {A : Type} (r : Outcome A * WorkflowManager * World) : WorkflowManager :=
  snd (fst r).
Definition world_of {A : Type} (r : Outcome A * WorkflowManager * World) : World :=
  snd r.

(** Reading and assigning [self]. *)
Definition self : Action WorkflowManager :=
  fun m w => (Returned m, m, w).

Definition assign (f : WorkflowManager -> WorkflowManager) : Action unit :=
  fun m w => (Returned tt, f m, w).

(** [time.time()] *)
Definition time_time : Action Q :=
  fun m w => (Returned (clock w), m, w).

(** [time.sleep(d)] *)
Definition time_sleep (d : Q) : Action unit :=
  fun m w =>
    (Returned tt, m,
     mkWorld (clock w + d)%Q (current_task w) (chrome_windows w) (firefox_windows w)
       (popen w) (terminate w) (launched w) (terminated w) (opened w)).

(** [subprocess.Popen(cmd)] *)
Definition subprocess_Popen (cmd : Command) : Action Process :=
  fun m w =>
    (popen w cmd, m,
     mkWorld (clock w) (current_task w) (chrome_windows w) (firefox_windows w)
       (popen w) (terminate w) (launched w ++ [cmd])%list (terminated w) (opened w)).

(** [process.terminate()] *)
Definition Process_terminate (p : Process) : Action unit :=
  fun m w =>
    (terminate w p, m,
     mkWorld (clock w) (current_task w) (chrome_windows w) (firefox_windows w)
       (popen w) (terminate w) (launched w) (terminated w ++ [p])%list (opened w)).

(** [webbrowser.open(url)] *)
Definition webbrowser_open (url : string) : Action unit :=
  fun m w =>
    (Returned tt, m,
     mkWorld (clock w) (current_task w) (chrome_windows w) (firefox_windows w)
       (popen w) (terminate w) (launched w) (terminated w) (opened w ++ [url])%list).

(** [ContextManager.set_task] *)
Definition set_task (task_name : string) : Action unit :=
  fun m w =>
    (Returned tt, m,
     mkWorld (clock w) (Some task_name) (chrome_windows w) (firefox_windows w)
       (popen w) (terminate w) (launched w) (terminated w) (opened w)).

(** [BrowserTabManager.get_chrome_tabs] and [get_firefox_tabs]: the
    windows the window list shows for the browser, none without wmctrl. *)
Definition get_chrome_tabs (tm : BrowserTabManager) (w : World) : list Tab :=
  if negb (wmctrl_available tm) then [] else chrome_windows w.

Definition get_firefox_tabs (tm : BrowserTabManager) (w : World) : list Tab :=
  if negb (wmctrl_available tm) then [] else firefox_windows w.

(** [BrowserTabManager.get_all_tabs] *)
Definition get_all_tabs (tm : BrowserTabManager) : Action (list Tab) :=
  fun m w =>
    let all_tabs := [] in
    let all_tabs :=
      if chrome_installed tm || chromium_installed tm
      then (all_tabs ++ get_chrome_tabs tm w)%list else all_tabs in
    let all_tabs :=
      if firefox_installed tm
      then (all_tabs ++ get_firefox_tabs tm w)%list else all_tabs in
    (Returned all_tabs, m, w).

(** ** workflow_manager.py: class WorkflowManager *)

(** [start_workflow] *)
Definition start_workflow (workflow_name : string) (steps : list string) : Action unit :=
  now <- time_time ;;
  assign (with_current_workflow (Some (mkWorkflow workflow_name steps 0 [] now))).

(** [cancel_workflow] *)
Definition cancel_workflow : Action unit :=
  assign (with_current_workflow None) ;;
  assign (with_state IDLE) ;;
  assign (with_waiting_for None).

(** [set_state]; [waiting_for] defaults to [None]. *)
Definition set_state (new_state : WorkflowState) (waiting_for : option string) : Action unit :=
  assign (with_state new_state) ;;
  assign (with_waiting_for waiting_for) ;;
  now <- time_time ;;
  assign (with_state_started_at (Some now)).

(** Truth value of a float: zero is false. *)
Definition float_truthy (x : Q) : bool := negb (Qeq_bool x 0).

(** [x > y] on time readings. *)
Definition Qgtb (x y : Q) : bool := negb (Qle_bool x y).

(** [is_state_expired] *)
Definition is_state_expired : Action bool :=
  m <- self ;;
  match state_started_at m with
  | Some started =>
      if float_truthy started then
        now <- time_time ;;
        ret (Qgtb (now - started)%Q (state_timeout m))
      else ret false
  | None => ret false
  end.

(** The dict [get_current_state_info] returns. *)
Record StateInfo : Type := mkStateInfo {
  info_state : string;
  info_waiting_for : option string;
  info_workflow : option string;
  info_workflow_progress : option string
}.

(** [get_current_state_info] *)
Definition get_current_state_info : Action StateInfo :=
  m <- self ;;
  ret {| info_state := value (state m);
         info_waiting_for := waiting_for m;
         info_workflow := option_map name (current_workflow m);
         info_workflow_progress := option_map get_progress (current_workflow m) |}.

(** The alias table that [handle_profile_selection] and
    [_get_chrome_profile] both spell out. *)
Definition profile_map : PyDict.dict string :=
  [ ("default", "Default");
    ("me", "Default");
    ("profile 1", "Profile 1");
    ("profile1", "Profile 1");
    ("1", "Profile 1");
    ("amaan", "Profile 1");
    ("profile 2", "Profile 2");
    ("profile2", "Profile 2");
    ("2", "Profile 2");
    ("work", "Profile 2") ].

(** [_get_chrome_profile] *)
Definition _get_chrome_profile (profile_name : string) : string :=
  PyDict.get_default profile_map (PyStr.lower profile_name) "Default".

(** The command line that starts Chrome on a profile directory. *)
Definition chrome_with_profile (profile_dir : string) : string :=
  "google-chrome --profile-directory=" ++ PyStr.dquote ++ profile_dir ++ PyStr.dquote.

(** [handle_browser_opening]; [profile] defaults to [None]. *)
Definition handle_browser_opening (browser_name : string) (profile : option string)
  : Action (bool * string) :=
  set_state BROWSER_STARTING (Some "profile selection") ;;
  set_task ("opening_" ++ browser_name) ;;
  if PyStr.lower browser_name =? "chrome" then
    let cmd :=
      match PyStr.truthy profile with
      | Some p => chrome_with_profile (_get_chrome_profile p)
      | None => "google-chrome"
      end in
    try_except
      (process <- subprocess_Popen (Shell cmd) ;;
       assign (with_browser_process (Some process)) ;;
       time_sleep 2 ;;
       match PyStr.truthy profile with
       | Some _ =>
           assign (with_selected_profile profile) ;;
           set_state BROWSER_READY None ;;
           ret (true, "Chrome opened with " ++ PyStr.fmt profile ++ " profile")
       | None =>
           set_state PROFILE_SELECTION
             (Some "profile name (e.g., 'profile 1', 'amaan')") ;;
           ret (true, "Chrome is opening. Which profile? Say 'Profile 1' or 'Amaan'")
       end)
      (fun e =>
         set_state IDLE None ;;
         ret (false, "Failed to open Chrome: " ++ e))
  else
    let cmd := PyStr.lower browser_name in
    try_except
      (subprocess_Popen (Exec [cmd]) ;;
       time_sleep 2 ;;
       set_state BROWSER_READY None ;;
       ret (true, browser_name ++ " opened"))
      (fun _ =>
         set_state IDLE None ;;
         ret (false, "Failed to open " ++ browser_name)).

(** [handle_profile_selection] *)
Definition handle_profile_selection (profile_input : string) : Action (bool * string) :=
  m <- self ;;
  if negb (WorkflowState_eqb (state m) PROFILE_SELECTION) then
    ret (false, "Not in profile selection mode")
  else
    let profile_input := PyStr.strip (PyStr.lower profile_input) in
    let profile_dir := PyDict.get profile_map profile_input in
    match PyStr.truthy profile_dir with
    | None =>
        ret (false, "Unknown profile: " ++ profile_input
                    ++ ". Try 'Profile 1', 'Amaan', or 'Profile 2'")
    | Some profile_dir =>
        match browser_process m with
        | Some process =>
            try_except
              (Process_terminate process ;;
               time_sleep (1 # 2))
              (fun _ => ret tt)
        | None => ret tt
        end ;;
        let cmd := chrome_with_profile profile_dir in
        try_except
          (process <- subprocess_Popen (Shell cmd) ;;
           assign (with_browser_process (Some process)) ;;
           assign (with_selected_profile (Some profile_input)) ;;
           time_sleep 2 ;;
           set_state BROWSER_READY None ;;
           ret (true, "Opened " ++ profile_input
                      ++ " profile. What would you like to do?"))
          (fun e =>
             set_state IDLE None ;;
             ret (false, "Failed to open profile: " ++ e))
    end.

(** The guard of [handle_website_opening]: outside [BROWSER_READY] and
    [IDLE], is there no tab manager or no tab? *)
Definition no_browser_open : Action bool :=
  m <- self ;;
  if negb (state_in (state m) [BROWSER_READY; IDLE]) then
    match tab_manager m with
    | None => ret true
    | Some tm =>
        tabs <- get_all_tabs tm ;;
        ret (match tabs with [] => true | _ => false end)
    end
  else ret false.

(** [handle_website_opening] *)
Definition handle_website_opening (website_name : string) : Action (bool * string) :=
  blocked <- no_browser_open ;;
  if blocked then
    ret (false, "No browser is open. Say 'Open Chrome' first")
  else
    let url :=
      match PyStr.truthy (PyDict.get WEBSITE_URLS (PyStr.lower website_name)) with
      | Some url => url
      | None => "https://www.google.com/search?q=" ++ website_name
      end in
    webbrowser_open url ;;
    assign (with_current_url (Some url)) ;;
    ret (true, "Opening " ++ website_name).

(** The loop of [handle_search_query] over the tabs: the first tab whose
    lower-cased title contains "youtube" or "google" decides. *)
Fixpoint detect_platform (tabs : list Tab) (platform : option string) : option string :=
  match tabs with
  | [] => platform
  | tab :: tabs' =>
      if PyStr.contains "youtube" (PyStr.lower (title tab)) then Some "youtube"
      else if PyStr.contains "google" (PyStr.lower (title tab)) then Some "google"
      else detect_platform tabs' platform
  end.

(** [==] on optional strings. *)
Definition opt_str_eqb (a : option string) (b : string) : bool :=
  match a with
  | Some s => s =? b
  | None => false
  end.

(** [handle_search_query]; [platform] defaults to [None]. *)
Definition handle_search_query (query : string) (platform : option string)
  : Action (bool * string) :=
  m <- self ;;
  platform <-
    match PyStr.truthy platform with
    | None =>
        match tab_manager m with
        | Some tm =>
            tabs <- get_all_tabs tm ;;
            ret (detect_platform tabs platform)
        | None => ret platform
        end
    | Some _ => ret platform
    end ;;
  let url :=
    if opt_str_eqb platform "youtube" then
      "https://www.youtube.com/results?search_query=" ++ PyStr.replace " " "+" query
    else
      "https://www.google.com/search?q=" ++ PyStr.replace " " "+" query in
  webbrowser_open url ;;
  ret (true, "Searching for " ++ query).

(** [get_help_message] *)
Definition get_help_message : Action string :=
  m <- self ;;
  match state m with
  | IDLE => ret "Ready! Try: 'Open Chrome', 'Open Firefox', or 'What apps are running?'"
  | PROFILE_SELECTION =>
      ret "Chrome is open. Say: 'Profile 1', 'Amaan', 'Profile 2', or 'Default'"
  | BROWSER_READY => ret "Browser ready! Say: 'YouTube', 'Gmail', 'Search for X'"
  | SEARCHING => ret "On search page. Say: 'Play first video', 'Next page'"
  | s => ret ("Current state: " ++ value s)
  end.

(** ** The machine as the dispatcher drives it *)

(** The operations a caller invokes on the manager. *)
Inductive Operation : Type :=
| startBrowserOpening (browser_name : string) (profile : option string)
| selectProfile (text : string)
| openWebsite (website_name : string)
| runSearch (query : string) (platform : option string)
| cancelWorkflow
| startWorkflow (workflow_name : string) (steps : list string)
| isStateExpired
| getCurrentStateInfo
| getHelpMessage.

(** Forgetting what a call returns. *)
Definition void {A : Type} (c : Action A) : Action unit := c ;; ret tt.

Definition perform (op : Operation) : Action unit :=
  match op with
  | startBrowserOpening browser_name profile =>
      void (handle_browser_opening browser_name profile)
  | selectProfile text => void (handle_profile_selection text)
  | openWebsite website_name => void (handle_website_opening website_name)
  | runSearch query platform => void (handle_search_query query platform)
  | cancelWorkflow => cancel_workflow
  | startWorkflow workflow_name steps => start_workflow workflow_name steps
  | isStateExpired => void is_state_expired
  | getCurrentStateInfo => void get_current_state_info
  | getHelpMessage => void get_help_message
  end.

(** The managers that calls can produce, starting from a fresh one; the
    world is free to be any between two calls. *)
Inductive reachable : WorkflowManager -> Prop :=
| reachable_init : forall tm, reachable (init tm)
| reachable_perform : forall m op w,
    reachable m -> reachable (manager_of (perform op m w)).

(** ** More of Python: substring replacement and slices *)

Module PySeq.

(** [s.replace(old, new)] for strings [old] and [new]: occurrences are
    taken from the left and do not overlap; an empty [old] occurs before
    every character and at the end.  [skip] counts the characters of an
    occurrence still to be passed over. *)
Fixpoint replace_from (old new : string) (skip : nat) (s : string) : string :=
  match s with
  | EmptyString => if old =? "" then new else EmptyString
  | String c s' =>
      match skip with
      | S k => replace_from old new k s'
      | O =>
          if old =? "" then new ++ String c (replace_from old new 0 s')
          else if prefix old s
          then new ++ replace_from old new (String.length old - 1) s'
          else String c (replace_from old new 0 s')
      end
  end.

Definition replace_all (old new : string) (s : string) : string :=
  replace_from old new 0 s.

(** [l[start:]] for an integer [start], negative ones counting from the
    end. *)
Definition slice_from {A : Type} (l : list A) (start : Z) : list A :=
  let len := Z.of_nat (List.length l) in
  let first :=
    if (start <? 0)%Z then Z.max 0 (len + start) else Z.min start len in
  skipn (Z.to_nat first) l.

End PySeq.

(** ** error_handling.py, and how the Tab Directory is built *)







(** ** browser_tab_manager.py: looking a website up among the tabs *)

Definition WEBSITE_PATTERNS : PyDict.dict (list string) :=
  [ ("youtube", ["youtube.com"; "youtube"]);
    ("gmail", ["gmail.com"; "mail.google.com"; "gmail"]);
    ("google", ["google.com"; "google.co"]);
    ("facebook", ["facebook.com"; "fb.com"; "facebook"]);
    ("twitter", ["twitter.com"; "x.com"; "twitter"]);
    ("github", ["github.com"; "github"]);
    ("reddit", ["reddit.com"; "reddit"]);
    ("linkedin", ["linkedin.com"; "linkedin"]);
    ("whatsapp", ["web.whatsapp.com"; "whatsapp"]);
    ("netflix", ["netflix.com"; "netflix"]);
    ("amazon", ["amazon.com"; "amazon.in"; "amazon"]);
    ("stackoverflow", ["stackoverflow.com"; "stack overflow"]) ].

(** The test of the inner loop of [find_tab_by_website]: does some
    pattern occur in the lower-cased title? *)
Definition tab_matches (patterns : list string) (tab : Tab) : bool :=
  existsb (fun pattern => PyStr.contains pattern (PyStr.lower (title tab))) patterns.

(** [BrowserTabManager.find_tab_by_website] *)
Definition find_tab_by_website (tm : BrowserTabManager) (website_name : string)
  : Action (option Tab) :=
  let website_name := PyStr.strip (PyStr.lower website_name) in
  all_tabs <- get_all_tabs tm ;;
  match all_tabs with
  | [] => ret None
  | _ =>
      let patterns := PyDict.get_default WEBSITE_PATTERNS website_name [website_name] in
      ret (find (tab_matches patterns) all_tabs)
  end.

(** [BrowserTabManager.is_website_open] *)
Definition is_website_open (tm : BrowserTabManager) (website_name : string) : Action bool :=
  tab <- find_tab_by_website tm website_name ;;
  ret (match tab with Some _ => true | None => false end).

(** [BrowserTabManager.get_tab_count] *)
Definition get_tab_count (tm : BrowserTabManager) : Action nat :=
  tabs <- get_all_tabs tm ;;
  ret (List.length tabs).

(** ** context_manager.py: class ContextManager *)

Module Context.

(** An entry of [opened_apps]. *)
Record AppInfo : Type := mkAppInfo {
  app_name : string;
  app_command : string;
  app_pid : option nat;
  app_timestamp : Q
}.

(** An entry of [conversation_history]. *)
Record Entry : Type := mkEntry {
  timestamp : Q;
  user_command : string;
  assistant_action : string;
  entities : PyDict.dict string;
  app_mentioned : option string
}.

Record ContextManager : Type := mkContextManager {
  opened_apps : list AppInfo;
  conversation_history : list Entry;
  max_history : nat;
  last_app_mentioned : option string;
  last_action : option string;
  last_entity : option string;
  current_task : option string
}.

(** [ContextManager.__init__] *)
Definition init : ContextManager :=
  {| opened_apps := [];
     conversation_history := [];
     max_history := 10;
     last_app_mentioned := None;
     last_action := None;
     last_entity := None;
     current_task := None |}.

(** [add_to_history], run when the clock reads [now]; [entities]
    defaults to [None]. *)
Definition add_to_history (now : Q) (user_command assistant_action : string)
  (entities : option (PyDict.dict string)) (c : ContextManager) : ContextManager :=
  let entry :=
    {| timestamp := now;
       user_command := user_command;
       assistant_action := assistant_action;
       entities := match entities with Some (e :: es) => e :: es | _ => [] end;
       app_mentioned := last_app_mentioned c |} in
  let history := (conversation_history c ++ [entry])%list in
  let history :=
    if (max_history c <? List.length history)%nat then tl history else history in
  mkContextManager (opened_apps c) history (max_history c) (last_app_mentioned c)
    (last_action c) (last_entity c) (current_task c).

(** [track_opened_app]; [pid] defaults to [None]. *)
Definition track_opened_app (now : Q) (app_name command : string) (pid : option nat)
  (c : ContextManager) : ContextManager :=
  let app_info := mkAppInfo app_name command pid now in
  mkContextManager (opened_apps c ++ [app_info])%list (conversation_history c)
    (max_history c) (Some app_name) (last_action c) (last_entity c) (current_task c).

(** The words [resolve_reference] takes for references. *)
Definition references : list string :=
  ["it"; "that"; "this"; "the app"; "the application"].

(** [resolve_reference] *)
Definition resolve_reference (c : ContextManager) (text : string) : string :=
  let text_lower := PyStr.lower text in
  if existsb (fun word => PyStr.contains word text_lower) references then
    match PyStr.truthy (last_app_mentioned c) with
    | Some app =>
        fold_left (fun text_lower ref => PySeq.replace_all ref (PyStr.lower app) text_lower)
          references text_lower
    | None => text_lower
    end
  else text_lower.

Definition known_apps : list string :=
  ["chrome"; "firefox"; "terminal"; "calculator"; "files";
   "code"; "vscode"; "settings"; "music"; "videos";
   "chromium"; "brave"; "nautilus"; "gedit"].

(** [extract_app_name] *)
Definition extract_app_name (command : string) : option string :=
  let command_lower := PyStr.lower command in
  find (fun app => PyStr.contains app command_lower) known_apps.

(** [clear_task] *)
Definition clear_task (c : ContextManager) : ContextManager :=
  mkContextManager (opened_apps c) (conversation_history c) (max_history c)
    (last_app_mentioned c) (last_action c) (last_entity c) None.

(** [is_browser_task] *)
Definition is_browser_task (c : ContextManager) : bool :=
  match PyStr.truthy (last_app_mentioned c) with
  | Some app =>
      existsb (String.eqb (PyStr.lower app)) ["chrome"; "firefox"; "chromium"; "brave"]
  | None => false
  end.

(** The alias table of [get_chrome_profile_command]. *)
Definition profiles : PyDict.dict string :=
  [ ("me", "Default");
    ("amaan", "Profile 1");
    ("profile 1", "Profile 1");
    ("profile 2", "Profile 2");
    ("work", "Profile 2");
    ("personal", "Default");
    ("1", "Profile 1");
    ("2", "Profile 2") ].

(** [get_chrome_profile_command] *)
Definition get_chrome_profile_command (profile_name : string) : string :=
  let profile_dir := PyDict.get_default profiles (PyStr.lower profile_name) "Default" in
  "google-chrome --profile-directory=" ++ PyStr.dquote ++ profile_dir ++ PyStr.dquote.

(** [get_recent_history]; [n] defaults to 3. *)
Definition get_recent_history (c : ContextManager) (n : Z) : list Entry :=
  match conversation_history c with
  | [] => []
  | history => PySeq.slice_from history (- n)%Z
  end.

End Context.

(** ** voice_assistant_advanced.py: the "open chrome" branch of process_command *)

(** The profile the branch reads out of the lower-cased command. *)
Definition chrome_profile_of_command (command_lower : string) : option string :=
  let mentions word := PyStr.contains word command_lower in
  if mentions "profile" || mentions "amaan" || mentions "work" then
    if mentions "profile 1" || mentions "amaan" || mentions "profile1" then
      Some "profile 1"
    else if mentions "profile 2" || mentions "work" || mentions "profile2" then
      Some "profile 2"
    else if mentions "default" || mentions "me" then
      Some "default"
    else None
  else None.

(** The call the branch makes on the workflow manager. *)
Definition open_chrome_from_command (command_lower : string) : Action (bool * string) :=
  handle_browser_opening "chrome" (chrome_profile_of_command command_lower).

(** ** Vocabulary of the properties *)

(** A world in which every launch succeeds and nothing is open yet; the
    examples below run in it. *)
Definition calm (now : Q) : World :=
  {| clock := now;
     current_task := None;
     chrome_windows := [];
     firefox_windows := [];
     popen := fun _ => Returned 4242;
     terminate := fun _ => Returned tt;
     launched := [];
     terminated := [];
     opened := [] |}.

(** The same world with the given Chrome windows on screen. *)
Definition calm_with_chrome (now : Q) (tabs : list Tab) : World :=
  {| clock := now;
     current_task := None;
     chrome_windows := tabs;
     firefox_windows := [];
     popen := fun _ => Returned 4242;
     terminate := fun _ => Returned tt;
     launched := [];
     terminated := [];
     opened := [] |}.

(** A Tab Directory with Chrome and wmctrl installed. *)
Definition chrome_directory : BrowserTabManager :=
  mkBrowserTabManager true false false true.

(** The ten aliases of the table and its three directories. *)
Definition aliases : list string :=
  ["default"; "me"; "profile 1"; "profile1"; "1"; "amaan";
   "profile 2"; "profile2"; "2"; "work"].

Definition directories : list string := ["Default"; "Profile 1"; "Profile 2"].

(** The aliases the failure message offers. *)
Definition suggested : list string := ["Profile 1"; "Amaan"; "Profile 2"].

(** The tabs the Tab Directory of this manager enumerates; none when the
    manager has no Tab Directory. *)
Definition listTabs (m : WorkflowManager) (w : World) : list Tab :=
  match tab_manager m with
  | Some tm =>
      match outcome_of (get_all_tabs tm m w) with
      | Returned tabs => tabs
      | Raised _ => []
      end
  | None => []
  end.

(** The lower-cased title of the tab has [word] as a substring. *)
Definition mentions (word : string) (tab : Tab) : Prop :=
  exists before after, PyStr.lower (title tab) = before ++ word ++ after.

(** A tab that decides nothing. *)
Definition plain (tab : Tab) : Prop :=
  ~ mentions "youtube" tab /\ ~ mentions "google" tab.

(** The first tab, in the order of the list, that is not plain. *)
Definition first_match (tabs : list Tab) (tab : Tab) : Prop :=
  exists earlier later,
    tabs = (earlier ++ tab :: later)%list /\ Forall plain earlier /\ ~ plain tab.

(** The two result pages: the query follows with every blank turned
    into a plus sign. *)
Definition youtube_results (query : string) : string :=
  "https://www.youtube.com/results?search_query=" ++ PyStr.replace " " "+" query.

Definition google_search (query : string) : string :=
  "https://www.google.com/search?q=" ++ PyStr.replace " " "+" query.

(** The platform [handle_search_query] settles on. *)
Definition effective_platform (platform : option string)
  (m : WorkflowManager) (w : World) : option string :=
  match PyStr.truthy platform with
  | None => detect_platform (listTabs m w) platform
  | Some _ => platform
  end.

(** No platform was named: [None], or the empty string, which the test
    [if not platform] does not tell from [None]. *)
Definition unspecified (platform : option string) : Prop :=
  platform = None \/ platform = Some "".

(** Splits a call on the answers of the world and on the tests the
    method makes, down to the runs without a choice left. *)
Ltac split_run :=
  repeat match goal with
         | |- context [match popen ?w ?c with _ => _ end] => destruct (popen w c)
         | |- context [match terminate ?w ?p with _ => _ end] => destruct (terminate w p) as [[]|]
         | |- context [match PyStr.truthy ?o with _ => _ end] => destruct (PyStr.truthy o)
         | |- context [match browser_process ?m with _ => _ end] => destruct (browser_process m)
         | |- context [if ?b then _ else _] => destruct b
         end.

(** [waiting_for] fits the state: set in [PROFILE_SELECTION], [None] in
    [IDLE]. *)
Definition waiting_for_consistent (m : WorkflowManager) : Prop :=
  (state m = PROFILE_SELECTION -> waiting_for m <> None) /\
  (state m = IDLE -> waiting_for m = None).

(** [next_step] called [n] times in a row: what the calls return and
    the plan they leave. *)
Fixpoint take_steps (n : nat) (wf : Workflow) : list (option string) * Workflow :=
  match n with
  | O => ([], wf)
  | S k =>
      let (step, wf') := next_step wf in
      let (rest, wf'') := take_steps k wf' in
      (step :: rest, wf'')
  end.

(** The world with another answer to [terminate]. *)
Definition with_terminate (f : Process -> Outcome unit) (w : World) : World :=
  mkWorld (clock w) (current_task w) (chrome_windows w) (firefox_windows w)
    (popen w) f (launched w) (terminated w) (opened w).

(** The hint [handle_browser_opening] leaves when it asks for a profile. *)
Definition profile_prompt : string := "profile name (e.g., 'profile 1', 'amaan')".

(** What holds of the session data of every manager the calls produce. *)
Definition session_consistent (m : WorkflowManager) : Prop :=
  (state m = IDLE \/ state m = PROFILE_SELECTION \/ state m = BROWSER_READY) /\
  (state m = PROFILE_SELECTION -> waiting_for m = Some profile_prompt) /\
  (state m <> PROFILE_SELECTION -> waiting_for m = None) /\
  (state m = PROFILE_SELECTION -> browser_process m <> None) /\
  (state m <> IDLE -> state_started_at m <> None) /\
  (selected_profile m <> Some "") /\
  (forall wf, current_workflow m = Some wf -> current_step wf = 0 /\ data wf = []).

(** Closes the session conditions on a manager given field by field. *)
Ltac close_session :=
  unfold session_consistent, profile_prompt;
  cbn [state waiting_for browser_process state_started_at selected_profile
       current_workflow with_state with_waiting_for with_browser_process
       with_selected_profile with_current_url with_state_started_at
       with_current_workflow];
  repeat split; intros;
  try discriminate; try congruence; auto;
  try match goal with
      | Hp : forall wf, current_workflow _ = Some wf -> _,
        Hw : current_workflow _ = Some ?wf |- _ =>
          destruct (Hp wf Hw) as [? ?]; assumption
      end.




(** * Properties *)

(** ** Strings *)

Module PyStrFacts.

Import PyStr.

Lemma prefix_app (p s : string) :
  prefix p s = true <-> exists rest, s = p ++ rest.
Proof.
  revert s. induction p as [|a p IH]; intros s.
  - split; [intros _; exists s; reflexivity | intros _; destruct s; reflexivity].
  - destruct s as [|b s]; simpl.
    + split; [discriminate | intros [rest H]; discriminate H].
    + destruct (ascii_dec a b) as [->|Hab].
      * rewrite IH. split; intros [rest H]; exists rest.
        -- now rewrite H.
        -- now injection H.
      * split; [discriminate | intros [rest H]; injection H; intros _ E].
        now elim Hab.
Qed.

(** [contains] decides "is a substring of". *)
Lemma contains_spec (sub s : string) :
  contains sub s = true <-> exists before after, s = before ++ sub ++ after.
Proof.
  induction s as [|c s IH]; cbn [contains].
  - rewrite orb_false_r, prefix_app. split.
    + intros [rest H]. exists "", rest. exact H.
    + intros [before [after H]]. destruct before; [|discriminate H].
      exists after. exact H.
  - rewrite orb_true_iff, prefix_app, IH. split.
    + intros [[rest H] | [before [after H]]].
      * exists "", rest. exact H.
      * exists (String c before), after. simpl. now rewrite H.
    + intros [before [after H]]. destruct before as [|c' before]; simpl in H.
      * left. exists after. exact H.
      * right. exists before, after. now injection H.
Qed.

Lemma contains_app_r (sub before s : string) :
  contains sub s = true -> contains sub (before ++ s) = true.
Proof.
  rewrite !contains_spec. intros [a [b H]].
  exists (before ++ a), b. rewrite H.
  induction before as [|c before IH]; simpl; [reflexivity | now rewrite IH].
Qed.

Lemma replace_length (old new : ascii) (s : string) :
  String.length (replace old new s) = String.length s.
Proof. induction s as [|c s IH]; simpl; [reflexivity | now rewrite IH]. Qed.

(** [replace] rewrites every character on its own. *)
Lemma replace_get (old new : ascii) (s : string) (n : nat) :
  String.get n (replace old new s) =
  option_map (fun c => if Ascii.eqb c old then new else c) (String.get n s).
Proof.
  revert n. induction s as [|c s IH]; intros n; simpl; [reflexivity|].
  destruct n as [|n]; simpl; [reflexivity | apply IH].
Qed.

Lemma truthy_cases (o : option string) :
  (truthy o = None /\ (o = None \/ o = Some "")) \/
  (exists s, truthy o = Some s /\ o = Some s /\ s <> "").
Proof.
  destruct o as [s|]; simpl.
  - destruct (String.eqb_spec s "") as [->|Hne].
    + left. split; [reflexivity | right; reflexivity].
    + right. exists s. repeat split. assumption.
  - left. split; [reflexivity | left; reflexivity].
Qed.

End PyStrFacts.

(** ** Time readings *)

Lemma Qgtb_spec (x y : Q) : Qgtb x y = true <-> (y < x)%Q.
Proof.
  unfold Qgtb. rewrite negb_true_iff. split.
  - intros H. apply Qnot_le_lt. intros Hle.
    apply Qle_bool_iff in Hle. congruence.
  - intros H. destruct (Qle_bool x y) eqn:E; [|reflexivity].
    apply Qle_bool_iff in E. exfalso. apply (Qlt_not_le _ _ H E).
Qed.

Lemma float_truthy_spec (x : Q) : float_truthy x = true <-> ~ (x == 0)%Q.
Proof.
  unfold float_truthy. rewrite negb_true_iff. split.
  - intros H E. apply Qeq_bool_iff in E. congruence.
  - intros H. destruct (Qeq_bool x 0) eqn:E; [|reflexivity].
    apply Qeq_bool_iff in E. contradiction.
Qed.

(** ** Equations of the building blocks *)

Lemma WorkflowState_eqb_eq (a b : WorkflowState) :
  WorkflowState_eqb a b = true <-> a = b.
Proof. destruct a, b; simpl; split; intros H; try reflexivity; discriminate H. Qed.

Lemma WorkflowState_eqb_neq (a b : WorkflowState) :
  WorkflowState_eqb a b = false <-> a <> b.
Proof.
  destruct (WorkflowState_eqb a b) eqn:E.
  - apply WorkflowState_eqb_eq in E. split; [discriminate | congruence].
  - split; [|reflexivity]. intros _ H. apply WorkflowState_eqb_eq in H. congruence.
Qed.

(** ** Starting a browser *)

(** C1.  Every call [startBrowserOpening("chrome", profile)] hands one
    command to the process launcher and returns, whatever the launcher
    does.  When the launch raises, the call returns a failed result and
    the machine is in [IDLE].  When the launch succeeds: with the
    profile absent ([None], or the empty string, which the test
    [if profile] does not tell from [None]) the call returns success
    with the message that prompts for a profile and the machine is in
    [PROFILE_SELECTION] with [waiting_for] set; with a profile given the
    call returns success, the machine is in [BROWSER_READY] and the
    profile is stored in [selected_profile]. *)
Theorem startBrowserOpening_chrome (profile : option string)
  (m : WorkflowManager) (w : World) :
  let r := handle_browser_opening "chrome" profile m w in
  exists cmd : Command,
    launched (world_of r) = (launched w ++ [cmd])%list /\
    match popen w cmd with
    | Raised e =>
        outcome_of r = Returned (false, "Failed to open Chrome: " ++ e) /\
        state (manager_of r) = IDLE
    | Returned _ =>
        match profile with
        | None | Some EmptyString =>
            outcome_of r =
              Returned (true, "Chrome is opening. Which profile? Say 'Profile 1' or 'Amaan'") /\
            state (manager_of r) = PROFILE_SELECTION /\
            waiting_for (manager_of r) <> None
        | Some p =>
            outcome_of r = Returned (true, "Chrome opened with " ++ p ++ " profile") /\
            state (manager_of r) = BROWSER_READY /\
            selected_profile (manager_of r) = Some p
        end
    end.
Proof.
  intros r. subst r.
  destruct (PyStrFacts.truthy_cases profile) as [[Ht Hp] | [p [Ht [Hp Hne]]]].
  - exists (Shell "google-chrome").
    unfold handle_browser_opening, bind, try_except. simpl. rewrite Ht. simpl.
    destruct (popen w (Shell "google-chrome")) as [pr|e]; simpl.
    + destruct Hp as [-> | ->]; repeat split; discriminate.
    + repeat split.
  - exists (Shell (chrome_with_profile (_get_chrome_profile p))).
    unfold handle_browser_opening, bind, try_except. simpl. rewrite Ht. simpl.
    destruct (popen w (Shell (chrome_with_profile (_get_chrome_profile p)))) as [pr|e]; simpl.
    + subst profile. destruct p as [|c p']; [congruence|]. repeat split.
    + repeat split.
Qed.

(** The two runs the specification names: "open chrome" without and
    with a profile. *)
Example open_chrome_then_ask :
  let r := handle_browser_opening "chrome" None (init None) (calm 100) in
  state (manager_of r) = PROFILE_SELECTION /\
  waiting_for (manager_of r) = Some "profile name (e.g., 'profile 1', 'amaan')" /\
  launched (world_of r) = [Shell "google-chrome"].
Proof. repeat split. Qed.

Example open_chrome_work :
  let r := handle_browser_opening "chrome" (Some "work") (init None) (calm 100) in
  state (manager_of r) = BROWSER_READY /\
  selected_profile (manager_of r) = Some "work" /\
  launched (world_of r) =
    [Shell (chrome_with_profile "Profile 2")].
Proof. repeat split. Qed.

(** ** Selecting a profile *)

(** C2.  In every state other than [PROFILE_SELECTION] and for every
    input, [selectProfile] returns the failed result "Not in profile
    selection mode" and changes neither a field of the manager nor the
    world. *)
Theorem selectProfile_outside_profile_selection (text : string)
  (m : WorkflowManager) (w : World) :
  state m <> PROFILE_SELECTION ->
  handle_profile_selection text m w =
  (Returned (false, "Not in profile selection mode"), m, w).
Proof.
  intros Hstate. apply WorkflowState_eqb_neq in Hstate.
  unfold handle_profile_selection, bind, self. rewrite Hstate. reflexivity.
Qed.

(** "amaan" said while the browser is ready already is ignored. *)
Lemma selectProfile_outside_profile_selection_witness :
  state (with_state BROWSER_READY (init None)) <> PROFILE_SELECTION /\
  handle_profile_selection "amaan" (with_state BROWSER_READY (init None)) (calm 100) =
  (Returned (false, "Not in profile selection mode"),
   with_state BROWSER_READY (init None), calm 100).
Proof.
  split.
  - simpl. discriminate.
  - apply (selectProfile_outside_profile_selection "amaan"
             (with_state BROWSER_READY (init None)) (calm 100)).
    simpl. discriminate.
Defined.

Lemma profile_map_keys : PyDict.keys profile_map = aliases.
Proof. reflexivity. Qed.

(** A key is looked up in vain exactly when the dict does not list it. *)
Lemma get_none_iff {V : Type} (d : PyDict.dict V) (k : string) :
  PyDict.get d k = None <-> ~ In k (PyDict.keys d).
Proof.
  induction d as [|[k' v] d IH]; simpl.
  - tauto.
  - destruct (String.eqb_spec k' k) as [->|Hne].
    + split; [discriminate | intros H; exfalso; apply H; now left].
    + rewrite IH. tauto.
Qed.

Lemma get_some_in {V : Type} (d : PyDict.dict V) (k : string) (v : V) :
  PyDict.get d k = Some v -> In (k, v) d.
Proof.
  induction d as [|[k' v'] d IH]; simpl; [discriminate|].
  destruct (String.eqb_spec k' k) as [->|Hne].
  - intros H. injection H as ->. now left.
  - intros H. right. now apply IH.
Qed.

(** Aliases carry no blank at either end: stripping leaves them as they are. *)
Lemma strip_alias (a : string) : In a aliases -> PyStr.strip a = a.
Proof.
  unfold aliases. cbn [In].
  intros H; repeat (destruct H as [<- | H]; [reflexivity|]); contradiction.
Qed.

(** What [handle_profile_selection] does once the input resolves: it
    tries to stop the tracked process, launches Chrome on the directory
    and, when that launch succeeds, ends in [BROWSER_READY]. *)
Lemma handle_profile_selection_resolved (text dir : string)
  (m : WorkflowManager) (w : World) :
  state m = PROFILE_SELECTION ->
  PyDict.get profile_map (PyStr.strip (PyStr.lower text)) = Some dir ->
  let r := handle_profile_selection text m w in
  launched (world_of r) = (launched w ++ [Shell (chrome_with_profile dir)])%list /\
  match popen w (Shell (chrome_with_profile dir)) with
  | Returned process =>
      outcome_of r =
        Returned (true, "Opened " ++ PyStr.strip (PyStr.lower text)
                        ++ " profile. What would you like to do?") /\
      state (manager_of r) = BROWSER_READY /\
      selected_profile (manager_of r) = Some (PyStr.strip (PyStr.lower text)) /\
      browser_process (manager_of r) = Some process
  | Raised e =>
      outcome_of r = Returned (false, "Failed to open profile: " ++ e) /\
      state (manager_of r) = IDLE
  end.
Proof.
  intros Hstate Hget r. subst r.
  assert (Hdir : PyStr.truthy (Some dir) = Some dir).
  { apply get_some_in in Hget. unfold profile_map in Hget. cbn [In] in Hget.
    repeat (destruct Hget as [Hget | Hget];
            [injection Hget as _ <-; reflexivity|]).
    contradiction. }
  unfold handle_profile_selection, bind, self.
  rewrite Hstate. cbn [WorkflowState_eqb negb].
  rewrite Hget, Hdir.
  destruct (browser_process m) as [old|].
  - unfold try_except, bind, Process_terminate, time_sleep, ret.
    destruct (terminate w old) as [[]|e0]; cbn -[chrome_with_profile];
      destruct (popen w (Shell (chrome_with_profile dir))) as [pr|e];
      cbn -[chrome_with_profile]; repeat split.
  - unfold try_except, bind, ret. cbn -[chrome_with_profile].
    destruct (popen w (Shell (chrome_with_profile dir))) as [pr|e];
      cbn -[chrome_with_profile]; repeat split.
Qed.

(** The table, alias by alias. *)
Example alias_table :
  map (fun a => (a, PyDict.get profile_map a)) aliases =
  [ ("default", Some "Default"); ("me", Some "Default");
    ("profile 1", Some "Profile 1"); ("profile1", Some "Profile 1");
    ("1", Some "Profile 1"); ("amaan", Some "Profile 1");
    ("profile 2", Some "Profile 2"); ("profile2", Some "Profile 2");
    ("2", Some "Profile 2"); ("work", Some "Profile 2") ].
Proof. reflexivity. Qed.

(** C3.  Let [text] spell one of the ten aliases in any letter case and
    let the machine be in [PROFILE_SELECTION].  Then [selectProfile]
    resolves the alias to the one directory the table gives for it, one
    of Default, Profile 1 and Profile 2, launches Chrome on that
    directory (whether or not stopping the tracked process worked) and,
    when the launch succeeds, returns success with the machine in
    [BROWSER_READY] and the alias stored in [selected_profile]. *)
Theorem selectProfile_alias (text alias : string)
  (m : WorkflowManager) (w : World) :
  In alias aliases ->
  PyStr.lower text = alias ->
  state m = PROFILE_SELECTION ->
  let r := handle_profile_selection text m w in
  exists dir : string,
    PyDict.get profile_map alias = Some dir /\
    In dir directories /\
    launched (world_of r) = (launched w ++ [Shell (chrome_with_profile dir)])%list /\
    forall process : Process,
      popen w (Shell (chrome_with_profile dir)) = Returned process ->
      outcome_of r =
        Returned (true, "Opened " ++ alias ++ " profile. What would you like to do?") /\
      state (manager_of r) = BROWSER_READY /\
      selected_profile (manager_of r) = Some alias.
Proof.
  intros Hin Hlower Hstate r.
  assert (Hdir : exists dir, PyDict.get profile_map alias = Some dir /\ In dir directories).
  { unfold aliases in Hin. cbn [In] in Hin.
    repeat (destruct Hin as [<- | Hin];
            [eexists; split; [reflexivity | cbn [directories In]; tauto]|]).
    contradiction. }
  destruct Hdir as [dir [Hget Hd]].
  exists dir. split; [exact Hget|]. split; [exact Hd|].
  assert (Hnorm : PyStr.strip (PyStr.lower text) = alias).
  { rewrite Hlower. now apply strip_alias. }
  pose proof (handle_profile_selection_resolved text dir m w Hstate) as Hres.
  rewrite Hnorm in Hres. specialize (Hres Hget). cbv zeta in Hres.
  destruct Hres as [Hlaunched Hrest]. split; [exact Hlaunched|].
  intros process Hpopen. rewrite Hpopen in Hrest.
  destruct Hrest as [Hout [Hst [Hsel _]]]. subst r. auto.
Qed.

(** "WORK", said after "open chrome", opens the second profile. *)
Lemma selectProfile_alias_witness :
  In "work" aliases /\
  PyStr.lower "WORK" = "work" /\
  state (manager_of (handle_browser_opening "chrome" None (init None) (calm 100)))
    = PROFILE_SELECTION /\
  let r := handle_profile_selection "WORK"
             (manager_of (handle_browser_opening "chrome" None (init None) (calm 100)))
             (calm 103) in
  exists dir : string,
    PyDict.get profile_map "work" = Some dir /\
    In dir directories /\
    launched (world_of r) = (launched (calm 103) ++ [Shell (chrome_with_profile dir)])%list /\
    forall process : Process,
      popen (calm 103) (Shell (chrome_with_profile dir)) = Returned process ->
      outcome_of r =
        Returned (true, "Opened " ++ "work" ++ " profile. What would you like to do?") /\
      state (manager_of r) = BROWSER_READY /\
      selected_profile (manager_of r) = Some "work".
Proof.
  split; [cbn; tauto|]. split; [reflexivity|]. split; [reflexivity|].
  apply (selectProfile_alias "WORK" "work"
           (manager_of (handle_browser_opening "chrome" None (init None) (calm 100)))
           (calm 103)).
  - cbn; tauto.
  - reflexivity.
  - reflexivity.
Defined.

(** C4, as the code has it.  Let the machine be in [PROFILE_SELECTION]
    and let the input, lower-cased and stripped of surrounding blanks,
    be none of the ten aliases.  Then [selectProfile] returns a failed
    result, changes no field of the manager and nothing in the world, so
    that the machine stays in [PROFILE_SELECTION]; its message repeats
    the normalised input and offers 'Profile 1', 'Amaan' and
    'Profile 2', each of them a valid alias. *)
Theorem selectProfile_unmapped (text : string)
  (m : WorkflowManager) (w : World) :
  state m = PROFILE_SELECTION ->
  ~ In (PyStr.strip (PyStr.lower text)) aliases ->
  let message :=
    "Unknown profile: " ++ PyStr.strip (PyStr.lower text)
    ++ ". Try 'Profile 1', 'Amaan', or 'Profile 2'" in
  handle_profile_selection text m w = (Returned (false, message), m, w) /\
  Forall (fun a => PyStr.contains ("'" ++ a ++ "'") message = true /\
                   In (PyStr.lower a) aliases) suggested.
Proof.
  intros Hstate Hnot message. split.
  - rewrite <- profile_map_keys in Hnot. apply get_none_iff in Hnot.
    unfold handle_profile_selection, bind, self.
    rewrite Hstate. cbn [WorkflowState_eqb negb].
    rewrite Hnot. reflexivity.
  - unfold suggested.
    repeat (apply Forall_cons;
            [split;
             [subst message;
              apply PyStrFacts.contains_app_r, PyStrFacts.contains_app_r;
              reflexivity
             | cbn; tauto]|]).
    apply Forall_nil.
Qed.

Lemma selectProfile_unmapped_witness :
  state (manager_of (handle_browser_opening "chrome" None (init None) (calm 100)))
    = PROFILE_SELECTION /\
  ~ In (PyStr.strip (PyStr.lower "Guest")) aliases /\
  handle_profile_selection "Guest"
    (manager_of (handle_browser_opening "chrome" None (init None) (calm 100)))
    (calm 103) =
  (Returned (false, "Unknown profile: guest. Try 'Profile 1', 'Amaan', or 'Profile 2'"),
   manager_of (handle_browser_opening "chrome" None (init None) (calm 100)),
   calm 103).
Proof.
  assert (Hnot : ~ In (PyStr.strip (PyStr.lower "Guest")) aliases).
  { cbn. intuition discriminate. }
  split; [reflexivity|]. split; [exact Hnot|].
  apply (selectProfile_unmapped "Guest"
           (manager_of (handle_browser_opening "chrome" None (init None) (calm 100)))
           (calm 103)).
  - reflexivity.
  - exact Hnot.
Defined.

(** C4 as the specification words it fails: " work", with a leading
    blank, is not an alias in any letter case, yet [selectProfile]
    strips it, accepts it and leaves [PROFILE_SELECTION]. *)
Lemma selectProfile_padded_alias_accepted :
  ~ (forall (text : string) (m : WorkflowManager) (w : World),
        state m = PROFILE_SELECTION ->
        ~ In (PyStr.lower text) aliases ->
        exists message : string,
          outcome_of (handle_profile_selection text m w) = Returned (false, message) /\
          state (manager_of (handle_profile_selection text m w)) = PROFILE_SELECTION).
Proof.
  intros H.
  destruct (H " work"
              (manager_of (handle_browser_opening "chrome" None (init None) (calm 100)))
              (calm 103)) as [message [Hout Hstate]].
  - reflexivity.
  - cbn. intuition discriminate.
  - vm_compute in Hstate. discriminate Hstate.
Qed.

(** ** Cancelling *)

(** C6.  From any state [cancelWorkflow] returns with the machine in
    [IDLE], [waiting_for] cleared and the active plan discarded; no
    other field and nothing in the world changes. *)
Theorem cancelWorkflow_resets (m : WorkflowManager) (w : World) :
  let r := cancel_workflow m w in
  outcome_of r = Returned tt /\
  state (manager_of r) = IDLE /\
  waiting_for (manager_of r) = None /\
  current_workflow (manager_of r) = None /\
  manager_of r =
    with_waiting_for None (with_state IDLE (with_current_workflow None m)) /\
  world_of r = w.
Proof. repeat split. Qed.

(** ** A profile given to [startBrowserOpening] is not validated *)



(** The empty string passed for the profile is no profile. *)
Example empty_profile_run :
  let r := handle_browser_opening "chrome" (Some "") (init None) (calm 100) in
  state (manager_of r) = PROFILE_SELECTION /\
  selected_profile (manager_of r) = None /\
  launched (world_of r) = [Shell "google-chrome"].
Proof. repeat split. Qed.

(** ** Opening a website *)

Lemma get_all_tabs_returns (tm : BrowserTabManager) (m : WorkflowManager) (w : World) :
  exists tabs, get_all_tabs tm m w = (Returned tabs, m, w).
Proof. unfold get_all_tabs. eexists. reflexivity. Qed.

Lemma no_browser_open_eq (m : WorkflowManager) (w : World) :
  no_browser_open m w =
  (Returned (negb (state_in (state m) [BROWSER_READY; IDLE]) &&
             match listTabs m w with [] => true | _ => false end), m, w).
Proof.
  unfold no_browser_open, listTabs, bind, self.
  destruct (state_in (state m) [BROWSER_READY; IDLE]); cbn [negb andb]; [reflexivity|].
  destruct (tab_manager m) as [tm|]; [|reflexivity].
  destruct (get_all_tabs_returns tm m w) as [tabs ->]. reflexivity.
Qed.

(** C5.  [openWebsite] never changes the workflow state and always
    returns.  Called in [IDLE] it succeeds, whatever the Tab Directory
    enumerates.  It returns the failed result "No browser is open" only
    when the state is neither [BROWSER_READY] nor [IDLE] and no tab is
    enumerated, and in that case it does return it. *)
Theorem openWebsite_guard (website_name : string)
  (m : WorkflowManager) (w : World) :
  let r := handle_website_opening website_name m w in
  let refused := Returned (false, "No browser is open. Say 'Open Chrome' first") in
  state (manager_of r) = state m /\
  (outcome_of r = refused \/ outcome_of r = Returned (true, "Opening " ++ website_name)) /\
  (state m = IDLE -> outcome_of r = Returned (true, "Opening " ++ website_name)) /\
  (outcome_of r = refused <->
   state m <> BROWSER_READY /\ state m <> IDLE /\ listTabs m w = []).
Proof.
  intros r refused. subst r refused.
  unfold handle_website_opening, bind. rewrite no_browser_open_eq.
  destruct (state m) eqn:Hstate; cbn [state_in existsb WorkflowState_eqb orb negb andb];
    try (destruct (listTabs m w) as [|tab tabs] eqn:Htabs);
    unfold webbrowser_open, assign, ret, outcome_of, manager_of; cbn [fst snd state with_current_url];
    (split; [reflexivity + exact Hstate|]);
    (split; [(left; reflexivity) + (right; reflexivity)|]);
    (split; [intros; reflexivity + discriminate|]);
    (split; [try discriminate; intros _; repeat split; discriminate
            | intros [H1 [H2 H3]]; try reflexivity; congruence]).
Qed.

(** The scenario of the specification: nothing open, state [IDLE]. *)
Lemma openWebsite_guard_witness :
  state (init None) = IDLE /\
  listTabs (init None) (calm 100) = [] /\
  outcome_of (handle_website_opening "youtube" (init None) (calm 100)) =
    Returned (true, "Opening youtube").
Proof.
  split; [reflexivity|]. split; [reflexivity|].
  destruct (openWebsite_guard "youtube" (init None) (calm 100)) as [_ [_ [Hidle _]]].
  exact (Hidle eq_refl).
Defined.

Example openWebsite_mid_selection_refused :
  let m := manager_of (handle_browser_opening "chrome" None (init None) (calm 100)) in
  handle_website_opening "youtube" m (calm 103) =
  (Returned (false, "No browser is open. Say 'Open Chrome' first"), m, calm 103).
Proof. reflexivity. Qed.

(** ** Searching *)

Lemma mentions_contains (word : string) (tab : Tab) :
  PyStr.contains word (PyStr.lower (title tab)) = true <-> mentions word tab.
Proof. apply PyStrFacts.contains_spec. Qed.

Lemma opt_str_eqb_eq (o : option string) (s : string) :
  opt_str_eqb o s = true <-> o = Some s.
Proof.
  destruct o as [s'|]; simpl.
  - rewrite String.eqb_eq. split; [now intros -> | now intros [= ->]].
  - split; discriminate.
Qed.

(** The loop answers "youtube" exactly when the first tab that is not
    plain mentions "youtube", or when no tab decides and "youtube" was
    the platform before the loop. *)
Lemma detect_platform_youtube (tabs : list Tab) (platform : option string) :
  detect_platform tabs platform = Some "youtube" <->
  (exists tab, first_match tabs tab /\ mentions "youtube" tab) \/
  (Forall plain tabs /\ platform = Some "youtube").
Proof.
  induction tabs as [|tab tabs IH]; cbn [detect_platform].
  - split.
    + intros H. right. split; [constructor | exact H].
    + intros [[tab [[earlier [later [H _]]] _]] | [_ H]]; [|exact H].
      destruct earlier; discriminate H.
  - destruct (PyStr.contains "youtube" (PyStr.lower (title tab))) eqn:Hy.
    + apply mentions_contains in Hy. split; [intros _ | reflexivity].
      left. exists tab. split; [|exact Hy].
      exists [], tabs. split; [reflexivity|]. split; [constructor|].
      intros [Hn _]. contradiction.
    + assert (Hny : ~ mentions "youtube" tab).
      { rewrite <- mentions_contains. congruence. }
      destruct (PyStr.contains "google" (PyStr.lower (title tab))) eqn:Hg.
      * apply mentions_contains in Hg. split; [discriminate|].
        intros [[t [[earlier [later [Heq [Hpl _]]]] Hm]] | [Hall _]].
        -- destruct earlier as [|e earlier]; injection Heq as <- _.
           ++ contradiction.
           ++ inversion Hpl as [|? ? [_ Hng] _]. contradiction.
        -- inversion Hall as [|? ? [_ Hng] _]. contradiction.
      * assert (Hpl : plain tab).
        { split; [exact Hny|]. rewrite <- mentions_contains. congruence. }
        rewrite IH. split.
        -- intros [[t [[earlier [later [Heq [Hearlier Hnp]]]] Hm]] | [Hall Hp]].
           ++ left. exists t. split; [|exact Hm].
              exists (tab :: earlier), later. rewrite Heq.
              split; [reflexivity|]. split; [now constructor | exact Hnp].
           ++ right. split; [now constructor | exact Hp].
        -- intros [[t [[earlier [later [Heq [Hearlier Hnp]]]] Hm]] | [Hall Hp]].
           ++ destruct earlier as [|e earlier]; injection Heq as <- ->.
              ** contradiction.
              ** left. exists t. split; [|exact Hm].
                 exists earlier, later. split; [reflexivity|].
                 split; [now inversion Hearlier | exact Hnp].
           ++ right. split; [now inversion Hall | exact Hp].
Qed.

Lemma handle_search_query_eq (query : string) (platform : option string)
  (m : WorkflowManager) (w : World) :
  handle_search_query query platform m w =
  (Returned (true, "Searching for " ++ query), m,
   mkWorld (clock w) (current_task w) (chrome_windows w) (firefox_windows w)
     (popen w) (terminate w) (launched w) (terminated w)
     (opened w ++
      [if opt_str_eqb (effective_platform platform m w) "youtube"
       then youtube_results query else google_search query])%list).
Proof.
  unfold handle_search_query, effective_platform, listTabs, bind, self.
  destruct (PyStr.truthy platform) as [p|].
  - reflexivity.
  - destruct (tab_manager m) as [tm|].
    + destruct (get_all_tabs_returns tm m w) as [tabs ->]. reflexivity.
    + reflexivity.
Qed.

(** C9.  [runSearch] returns success for every query and platform and
    leaves every field of the manager, so also the workflow state, as it
    was; it opens one URL.  That URL is the YouTube results page when
    the platform given is "youtube", or when none is specified and the
    first tab, in the order the Tab Directory returns them, whose title
    mentions "youtube" or "google" mentions "youtube"; in every other
    case it is the Google search page.  Both pages carry the query with
    each blank replaced by a plus sign and nothing else changed. *)
Theorem runSearch_spec (query : string) (platform : option string)
  (m : WorkflowManager) (w : World) :
  let r := handle_search_query query platform m w in
  let to_youtube :=
    platform = Some "youtube" \/
    (unspecified platform /\
     exists tab, first_match (listTabs m w) tab /\ mentions "youtube" tab) in
  outcome_of r = Returned (true, "Searching for " ++ query) /\
  manager_of r = m /\
  (to_youtube -> opened (world_of r) = (opened w ++ [youtube_results query])%list) /\
  (~ to_youtube -> opened (world_of r) = (opened w ++ [google_search query])%list) /\
  exists q : string,
    youtube_results query = "https://www.youtube.com/results?search_query=" ++ q /\
    google_search query = "https://www.google.com/search?q=" ++ q /\
    String.length q = String.length query /\
    forall n : nat,
      String.get n q =
      option_map (fun c => if (c =? " ")%char then "+"%char else c) (String.get n query).
Proof.
  intros r to_youtube. subst r. rewrite handle_search_query_eq.
  assert (Hchoice : opt_str_eqb (effective_platform platform m w) "youtube" = true
                    <-> to_youtube).
  { subst to_youtube. rewrite opt_str_eqb_eq. unfold effective_platform, unspecified.
    destruct (PyStrFacts.truthy_cases platform) as [[-> Hp] | [p [-> [Hp Hne]]]].
    - rewrite detect_platform_youtube. split.
      + intros [Hfirst | [_ Hyt]].
        * right. split; assumption.
        * destruct Hp as [Hp | Hp]; rewrite Hp in Hyt; discriminate Hyt.
      + intros [Hyt | [_ Hfirst]].
        * destruct Hp as [Hp | Hp]; rewrite Hp in Hyt; discriminate Hyt.
        * left. exact Hfirst.
    - split.
      + intros H. left. exact H.
      + intros [H | [[Hn | He] _]]; [exact H | congruence |].
        rewrite Hp in He. injection He as ->. contradiction. }
  unfold outcome_of, manager_of, world_of. cbn [fst snd opened].
  split; [reflexivity|]. split; [reflexivity|]. split; [|split].
  - intros Hy. apply Hchoice in Hy. now rewrite Hy.
  - intros Hn. destruct (opt_str_eqb (effective_platform platform m w) "youtube") eqn:E.
    + exfalso. apply Hn, Hchoice. reflexivity.
    + reflexivity.
  - exists (PyStr.replace " " "+" query).
    split; [reflexivity|]. split; [reflexivity|].
    split; [apply PyStrFacts.replace_length | intros n; apply PyStrFacts.replace_get].
Qed.

(** The scenario of the specification: "cats" with a tab titled
    "YouTube - Cats" open. *)
Lemma runSearch_spec_witness :
  let m := init (Some chrome_directory) in
  let w := calm_with_chrome 100 [mkTab "YouTube - Cats" "0x04000003" "chrome"] in
  (None = Some "youtube" \/
   (unspecified None /\
    exists tab, first_match (listTabs m w) tab /\ mentions "youtube" tab)) /\
  opened (world_of (handle_search_query "cats" None m w)) =
    ["https://www.youtube.com/results?search_query=cats"].
Proof.
  intros m w.
  assert (Hy : None = Some "youtube" \/
               (unspecified None /\
                exists tab, first_match (listTabs m w) tab /\ mentions "youtube" tab)).
  { right. split; [left; reflexivity|].
    exists (mkTab "YouTube - Cats" "0x04000003" "chrome").
    assert (Hm : mentions "youtube" (mkTab "YouTube - Cats" "0x04000003" "chrome")).
    { exists "", " - cats". reflexivity. }
    split; [|exact Hm].
    exists [], []. split; [reflexivity|]. split; [constructor|].
    intros [Hn _]. contradiction. }
  split; [exact Hy|].
  destruct (runSearch_spec "cats" None m w) as [_ [_ [Hyt _]]].
  exact (Hyt Hy).
Defined.

Example runSearch_google_tab_first :
  let m := init (Some chrome_directory) in
  let w := calm_with_chrome 100
             [mkTab "cats - Google Search" "0x04000003" "chrome";
              mkTab "YouTube" "0x04000004" "chrome"] in
  opened (world_of (handle_search_query "funny cats" None m w)) =
    ["https://www.google.com/search?q=funny+cats"].
Proof. reflexivity. Qed.

Example runSearch_unknown_platform :
  opened (world_of (handle_search_query "funny cats" (Some "YouTube")
                      (init None) (calm 100))) =
    ["https://www.google.com/search?q=funny+cats"].
Proof. reflexivity. Qed.

(** ** What every call preserves *)

Lemma handle_browser_opening_consistent (browser_name : string) (profile : option string)
  (m : WorkflowManager) (w : World) :
  waiting_for_consistent (manager_of (handle_browser_opening browser_name profile m w)).
Proof.
  unfold handle_browser_opening, bind, try_except.
  cbn -[PyStr.lower PyStr.truthy String.eqb chrome_with_profile _get_chrome_profile].
  split_run;
    cbn -[PyStr.lower PyStr.truthy String.eqb chrome_with_profile _get_chrome_profile];
    split; intros H; first [discriminate H | discriminate | reflexivity].
Qed.

Lemma handle_profile_selection_consistent (text : string)
  (m : WorkflowManager) (w : World) :
  waiting_for_consistent m ->
  waiting_for_consistent (manager_of (handle_profile_selection text m w)).
Proof.
  intros Hm. unfold handle_profile_selection, bind, try_except, self.
  destruct (negb (WorkflowState_eqb (state m) PROFILE_SELECTION)); [exact Hm|].
  destruct (PyStr.truthy (PyDict.get profile_map (PyStr.strip (PyStr.lower text))));
    [|exact Hm].
  cbn -[chrome_with_profile].
  repeat (split_run; cbn -[chrome_with_profile]);
    split; intros H; first [discriminate H | discriminate | reflexivity].
Qed.

Lemma handle_website_opening_keeps (website_name : string)
  (m : WorkflowManager) (w : World) :
  let m' := manager_of (handle_website_opening website_name m w) in
  state m' = state m /\ waiting_for m' = waiting_for m /\
  state_timeout m' = state_timeout m /\ state_started_at m' = state_started_at m.
Proof.
  unfold handle_website_opening, bind. rewrite no_browser_open_eq.
  destruct (negb (state_in (state m) [BROWSER_READY; IDLE]) &&
            match listTabs m w with [] => true | _ => false end);
    repeat split.
Qed.

Lemma is_state_expired_pure (m : WorkflowManager) (w : World) :
  manager_of (is_state_expired m w) = m /\ world_of (is_state_expired m w) = w.
Proof.
  unfold is_state_expired, bind, self.
  destruct (state_started_at m) as [t|]; [|split; reflexivity].
  destruct (float_truthy t); split; reflexivity.
Qed.

Lemma get_help_message_pure (m : WorkflowManager) (w : World) :
  manager_of (get_help_message m w) = m.
Proof. unfold get_help_message, bind, self. destruct (state m); reflexivity. Qed.

Lemma void_manager {A : Type} (c : Action A) (m : WorkflowManager) (w : World) :
  manager_of (void c m w) = manager_of (c m w).
Proof. unfold void, bind. destruct (c m w) as [[[a|e] m'] w']; reflexivity. Qed.

Lemma perform_consistent (op : Operation) (m : WorkflowManager) (w : World) :
  waiting_for_consistent m ->
  waiting_for_consistent (manager_of (perform op m w)).
Proof.
  intros Hm. destruct op as [bn pr | text | site | q pl | | wn st | | |];
    cbn [perform]; rewrite ?void_manager.
  - apply handle_browser_opening_consistent.
  - now apply handle_profile_selection_consistent.
  - destruct (handle_website_opening_keeps site m w) as [Hs [Hw _]].
    unfold waiting_for_consistent. rewrite Hs, Hw. exact Hm.
  - rewrite handle_search_query_eq. exact Hm.
  - split; [discriminate | reflexivity].
  - exact Hm.
  - now rewrite (proj1 (is_state_expired_pure m w)).
  - exact Hm.
  - now rewrite get_help_message_pure.
Qed.

(** C7.  In every state the operations reach from the initial one,
    [waiting_for] is set when the state is [PROFILE_SELECTION] and is
    [None] when the state is [IDLE]. *)
Theorem waiting_for_invariant (m : WorkflowManager) :
  reachable m ->
  (state m = PROFILE_SELECTION -> waiting_for m <> None) /\
  (state m = IDLE -> waiting_for m = None).
Proof.
  intros Hreach. change (waiting_for_consistent m).
  induction Hreach as [tm | m op w _ IH].
  - split; [discriminate | reflexivity].
  - now apply perform_consistent.
Qed.

(** After "open chrome" the machine waits for a profile name. *)
Lemma waiting_for_invariant_witness :
  reachable (manager_of (perform (startBrowserOpening "chrome" None)
                           (init None) (calm 100))) /\
  waiting_for (manager_of (perform (startBrowserOpening "chrome" None)
                             (init None) (calm 100))) <> None.
Proof.
  assert (Hreach : reachable (manager_of (perform (startBrowserOpening "chrome" None)
                                            (init None) (calm 100)))).
  { apply reachable_perform, reachable_init. }
  split; [exact Hreach|].
  apply (waiting_for_invariant _ Hreach). reflexivity.
Defined.

(** ** Expiry *)

Lemma void_world {A : Type} (c : Action A) (m : WorkflowManager) (w : World) :
  world_of (void c m w) = world_of (c m w).
Proof. unfold void, bind. destruct (c m w) as [[[a|e] m'] w']; reflexivity. Qed.

(** No call assigns [state_timeout]. *)
Lemma perform_keeps_timeout (op : Operation) (m : WorkflowManager) (w : World) :
  state_timeout (manager_of (perform op m w)) = state_timeout m.
Proof.
  destruct op as [bn pr | text | site | q pl | | wn st | | |];
    cbn [perform]; rewrite ?void_manager.
  - unfold handle_browser_opening, bind, try_except.
    cbn -[PyStr.lower PyStr.truthy String.eqb chrome_with_profile _get_chrome_profile].
    split_run; reflexivity.
  - unfold handle_profile_selection, bind, try_except, self.
    destruct (negb (WorkflowState_eqb (state m) PROFILE_SELECTION)); [reflexivity|].
    destruct (PyStr.truthy (PyDict.get profile_map (PyStr.strip (PyStr.lower text))));
      [|reflexivity].
    cbn -[chrome_with_profile].
    repeat (split_run; cbn -[chrome_with_profile]); reflexivity.
  - apply handle_website_opening_keeps.
  - now rewrite handle_search_query_eq.
  - reflexivity.
  - reflexivity.
  - now rewrite (proj1 (is_state_expired_pure m w)).
  - reflexivity.
  - now rewrite get_help_message_pure.
Qed.

Lemma reachable_timeout (m : WorkflowManager) :
  reachable m -> state_timeout m = 10%Q.
Proof.
  induction 1 as [tm | m op w _ IH]; [reflexivity|].
  now rewrite perform_keeps_timeout.
Qed.

(** A call other than [cancelWorkflow] that changes the state stamps
    the time at which it ends. *)
Lemma perform_stamps (op : Operation) (m : WorkflowManager) (w : World) :
  op <> cancelWorkflow ->
  state (manager_of (perform op m w)) = state m \/
  state_started_at (manager_of (perform op m w)) = Some (clock (world_of (perform op m w))).
Proof.
  intros Hop.
  destruct op as [bn pr | text | site | q pl | | wn st | | |];
    cbn [perform]; rewrite ?void_manager, ?void_world.
  - right. unfold handle_browser_opening, bind, try_except.
    cbn -[PyStr.lower PyStr.truthy String.eqb chrome_with_profile _get_chrome_profile].
    split_run; reflexivity.
  - unfold handle_profile_selection, bind, try_except, self.
    destruct (negb (WorkflowState_eqb (state m) PROFILE_SELECTION)); [left; reflexivity|].
    destruct (PyStr.truthy (PyDict.get profile_map (PyStr.strip (PyStr.lower text))));
      [|left; reflexivity].
    right. cbn -[chrome_with_profile].
    repeat (split_run; cbn -[chrome_with_profile]); reflexivity.
  - left. apply handle_website_opening_keeps.
  - left. now rewrite handle_search_query_eq.
  - contradiction.
  - left. reflexivity.
  - left. now rewrite (proj1 (is_state_expired_pure m w)).
  - left. reflexivity.
  - left. now rewrite get_help_message_pure.
Qed.

(** What [is_state_expired] answers, in terms of the stamp. *)
Lemma is_state_expired_answer (m : WorkflowManager) (w : World) :
  outcome_of (is_state_expired m w) =
  Returned match state_started_at m with
           | Some started =>
               float_truthy started && Qgtb (clock w - started)%Q (state_timeout m)
           | None => false
           end.
Proof.
  unfold is_state_expired, bind, self.
  destruct (state_started_at m) as [t|]; [|reflexivity].
  destruct (float_truthy t); reflexivity.
Qed.

(** C8, as the code has it.  [isStateExpired] returns an answer and
    changes neither the manager nor the world.  The answer is true
    exactly when a transition time is recorded in [state_started_at],
    that time is not zero, and the clock is more than 10 seconds past
    it.  Asked at the moment a call other than [cancelWorkflow] has
    changed the state, it answers false. *)
Theorem isStateExpired_spec (m : WorkflowManager) (w : World) :
  reachable m ->
  let r := is_state_expired m w in
  manager_of r = m /\
  world_of r = w /\
  (outcome_of r = Returned true \/ outcome_of r = Returned false) /\
  (outcome_of r = Returned true <->
   exists entered : Q,
     state_started_at m = Some entered /\ ~ (entered == 0)%Q /\
     (10 < clock w - entered)%Q) /\
  (forall op : Operation,
      op <> cancelWorkflow ->
      let after := perform op m w in
      state (manager_of after) <> state m ->
      outcome_of (is_state_expired (manager_of after) (world_of after)) = Returned false).
Proof.
  intros Hreach r. subst r.
  pose proof (reachable_timeout m Hreach) as Htimeout.
  destruct (is_state_expired_pure m w) as [Hm Hw].
  split; [exact Hm|]. split; [exact Hw|].
  rewrite is_state_expired_answer, Htimeout.
  split; [|split].
  - destruct (state_started_at m) as [t|]; [|right; reflexivity].
    destruct (float_truthy t && Qgtb (clock w - t) 10); [left | right]; reflexivity.
  - split.
    + intros H. injection H as H.
      destruct (state_started_at m) as [t|]; [|discriminate H].
      apply andb_true_iff in H. destruct H as [Ht Hgt].
      exists t. split; [reflexivity|].
      split; [now apply float_truthy_spec | now apply Qgtb_spec].
    + intros [t [-> [Ht Hgt]]].
      apply float_truthy_spec in Ht. apply Qgtb_spec in Hgt.
      now rewrite Ht, Hgt.
  - intros op Hop after Hchanged. subst after.
    destruct (perform_stamps op m w Hop) as [Hsame | Hstamp]; [contradiction|].
    rewrite is_state_expired_answer, Hstamp, perform_keeps_timeout, Htimeout.
    f_equal. apply andb_false_iff. right.
    destruct (Qgtb (clock (world_of (perform op m w)) - clock (world_of (perform op m w))) 10)
      eqn:E; [|reflexivity].
    apply Qgtb_spec in E. exfalso. lra.
Qed.

(** Asked 98 seconds after Chrome was opened and the profile prompt
    issued, the manager reports the state expired. *)
Lemma isStateExpired_spec_witness :
  reachable (manager_of (perform (startBrowserOpening "chrome" None)
                           (init None) (calm 100))) /\
  outcome_of (is_state_expired
                (manager_of (perform (startBrowserOpening "chrome" None)
                               (init None) (calm 100)))
                (calm 200)) = Returned true.
Proof.
  assert (Hreach : reachable (manager_of (perform (startBrowserOpening "chrome" None)
                                            (init None) (calm 100)))).
  { apply reachable_perform, reachable_init. }
  split; [exact Hreach|].
  destruct (isStateExpired_spec _ (calm 200) Hreach) as [_ [_ [_ [Hiff _]]]].
  apply Hiff. exists (100 + 2)%Q.
  split; [reflexivity|]. split.
  - intros H. discriminate H.
  - reflexivity.
Defined.

(** C8 as worded fails for the manager just built: whatever the time
    at which its state was entered, it never reports expiry, since no
    transition time is recorded yet. *)
Lemma fresh_manager_never_expires :
  ~ (exists entered : Q,
        forall w : World,
          outcome_of (is_state_expired (init None) w) = Returned true <->
          (10 < clock w - entered)%Q).
Proof.
  intros [entered H].
  destruct (H (calm (entered + 11))) as [_ Hlate].
  assert (Hexpired : outcome_of (is_state_expired (init None) (calm (entered + 11)))
                     = Returned true).
  { apply Hlate. cbn [clock calm]. lra. }
  discriminate Hexpired.
Qed.

(** [cancelWorkflow] moves the machine to [IDLE] without stamping the
    time: asked right after it, the manager still answers from the
    stamp of the state that was cancelled. *)
Example expired_right_after_cancel :
  let m1 := manager_of (handle_browser_opening "chrome" None (init None) (calm 100)) in
  let m2 := manager_of (cancel_workflow m1 (calm 200)) in
  state m1 = PROFILE_SELECTION /\
  state m2 = IDLE /\
  state_started_at m2 = state_started_at m1 /\
  outcome_of (is_state_expired m2 (calm 200)) = Returned true.
Proof. repeat split. Qed.

(** * More of the code *)

(** ** The plan *)

(** [next_step] has nothing to return exactly when [is_complete] says
    the plan is complete. *)
Theorem next_step_none_iff_complete (wf : Workflow) :
  fst (next_step wf) = None <-> is_complete wf = true.
Proof.
  unfold next_step, is_complete.
  destruct (Nat.ltb_spec (current_step wf) (List.length (steps wf))) as [Hlt | Hge].
  - cbn [fst]. split.
    + intros H. apply nth_error_None in H. lia.
    + intros H. apply Nat.leb_le in H. lia.
  - cbn [fst]. split; [intros _; now apply Nat.leb_le | reflexivity].
Qed.

Lemma skipn_nth_error {A : Type} (l : list A) (k : nat) (x : A) :
  nth_error l k = Some x -> skipn k l = x :: skipn (S k) l.
Proof.
  revert k. induction l as [|a l IH]; intros [|k]; simpl; try discriminate.
  - now intros [= ->].
  - intros H. now rewrite (IH k H).
Qed.

Lemma take_steps_rest (n : nat) (wf : Workflow) :
  current_step wf + n = List.length (steps wf) ->
  take_steps n wf =
  (map Some (skipn (current_step wf) (steps wf)),
   mkWorkflow (name wf) (steps wf) (List.length (steps wf)) (data wf) (created_at wf)).
Proof.
  revert wf. induction n as [|n IH]; intros wf Hlen.
  - rewrite Nat.add_0_r in Hlen. cbn [take_steps].
    rewrite Hlen, skipn_all. destruct wf; cbn in *. now subst.
  - cbn [take_steps]. unfold next_step.
    destruct (Nat.ltb_spec (current_step wf) (List.length (steps wf))) as [Hlt | Hge]; [|lia].
    destruct (nth_error (steps wf) (current_step wf)) as [x|] eqn:Hnth.
    + rewrite IH by (cbn; lia). cbn [name steps current_step data created_at].
      rewrite (skipn_nth_error _ _ _ Hnth). cbn [map].
      now rewrite Nat.add_1_r.
    + apply nth_error_None in Hnth. lia.
Qed.

(** On a plan whose cursor is at the start, as [start_workflow] makes
    it, as many calls of [next_step] as there are steps return the steps
    in order and leave the plan complete; from then on [next_step]
    returns [None] and moves nothing. *)
Theorem next_step_walks_plan (wf : Workflow) :
  current_step wf = 0 ->
  fst (take_steps (List.length (steps wf)) wf) = map Some (steps wf) /\
  is_complete (snd (take_steps (List.length (steps wf)) wf)) = true /\
  next_step (snd (take_steps (List.length (steps wf)) wf)) =
    (None, snd (take_steps (List.length (steps wf)) wf)).
Proof.
  intros Hstart. rewrite take_steps_rest by lia. rewrite Hstart.
  cbn [fst snd skipn]. split; [reflexivity|]. split.
  - unfold is_complete. cbn. apply Nat.leb_refl.
  - unfold next_step. cbn [current_step steps]. now rewrite Nat.ltb_irrefl.
Qed.

Lemma next_step_walks_plan_witness :
  let wf := mkWorkflow "browse" ["open chrome"; "profile 1"; "youtube"] 0 [] 100 in
  current_step wf = 0 /\
  fst (take_steps 3 wf) = [Some "open chrome"; Some "profile 1"; Some "youtube"].
Proof.
  intros wf. split; [reflexivity|].
  exact (proj1 (next_step_walks_plan wf eq_refl)).
Defined.

(** ** Browsers other than Chrome *)

(** For a browser whose name is not "chrome" in any letter case the
    profile passed plays no part: the call launches the lower-cased name
    as a program, ends in [BROWSER_READY] when that works and in [IDLE]
    with a failed result when it raises, and in either case keeps
    [selected_profile] and the tracked [browser_process] as they were:
    the process just started is not tracked. *)
Theorem other_browser_ignores_profile (browser_name : string) (profile : option string)
  (m : WorkflowManager) (w : World) :
  PyStr.lower browser_name <> "chrome" ->
  let r := handle_browser_opening browser_name profile m w in
  r = handle_browser_opening browser_name None m w /\
  launched (world_of r) = (launched w ++ [Exec [PyStr.lower browser_name]])%list /\
  selected_profile (manager_of r) = selected_profile m /\
  browser_process (manager_of r) = browser_process m /\
  match popen w (Exec [PyStr.lower browser_name]) with
  | Returned _ =>
      outcome_of r = Returned (true, browser_name ++ " opened") /\
      state (manager_of r) = BROWSER_READY
  | Raised _ =>
      outcome_of r = Returned (false, "Failed to open " ++ browser_name) /\
      state (manager_of r) = IDLE
  end.
Proof.
  intros Hother r. subst r. apply String.eqb_neq in Hother.
  unfold handle_browser_opening. rewrite Hother.
  unfold bind, try_except. cbn -[PyStr.lower].
  destruct (popen w (Exec [PyStr.lower browser_name])); cbn -[PyStr.lower]; repeat split.
Qed.

Lemma other_browser_ignores_profile_witness :
  PyStr.lower "Firefox" <> "chrome" /\
  handle_browser_opening "Firefox" (Some "work") (init None) (calm 100) =
  handle_browser_opening "Firefox" None (init None) (calm 100) /\
  launched (world_of (handle_browser_opening "Firefox" (Some "work") (init None) (calm 100)))
    = [Exec ["firefox"]].
Proof.
  assert (H : PyStr.lower "Firefox" <> "chrome") by discriminate.
  split; [exact H|].
  destruct (other_browser_ignores_profile "Firefox" (Some "work") (init None) (calm 100) H)
    as [Hsame [Hlaunched _]].
  split; [exact Hsame | exact Hlaunched].
Defined.

(** ** Selecting a profile: the process tracked before *)

(** When the launch of the selected profile raises, [selectProfile]
    returns a failed result that carries the text of the exception and
    abandons the workflow: the machine is in [IDLE] with [waiting_for]
    cleared, while [selected_profile] and [browser_process] keep what
    they held, so that the handle tracked is still the one of the
    process that was told to terminate. *)
Theorem selectProfile_launch_failure (text dir e : string)
  (m : WorkflowManager) (w : World) :
  state m = PROFILE_SELECTION ->
  PyDict.get profile_map (PyStr.strip (PyStr.lower text)) = Some dir ->
  popen w (Shell (chrome_with_profile dir)) = Raised e ->
  let r := handle_profile_selection text m w in
  outcome_of r = Returned (false, "Failed to open profile: " ++ e) /\
  state (manager_of r) = IDLE /\
  waiting_for (manager_of r) = None /\
  selected_profile (manager_of r) = selected_profile m /\
  browser_process (manager_of r) = browser_process m /\
  forall process, browser_process m = Some process ->
    terminated (world_of r) = (terminated w ++ [process])%list.
Proof.
  intros Hstate Hget Hpopen r. subst r.
  assert (Hdir : PyStr.truthy (Some dir) = Some dir).
  { apply get_some_in in Hget. unfold profile_map in Hget. cbn [In] in Hget.
    repeat (destruct Hget as [Hget | Hget];
            [injection Hget as _ <-; reflexivity|]).
    contradiction. }
  unfold handle_profile_selection, bind, self.
  rewrite Hstate. cbn [WorkflowState_eqb negb].
  rewrite Hget, Hdir.
  destruct (browser_process m) as [old|] eqn:Hold.
  - unfold try_except, bind, Process_terminate, time_sleep, ret.
    destruct (terminate w old) as [[]|e0]; cbn -[chrome_with_profile];
      rewrite Hpopen; cbn -[chrome_with_profile];
      (repeat split; [first [exact Hold | symmetry; exact Hold] | now intros process [= <-]]).
  - unfold try_except, bind, ret. cbn -[chrome_with_profile].
    rewrite Hpopen. cbn -[chrome_with_profile].
    repeat split; [first [exact Hold | symmetry; exact Hold] | discriminate].
Qed.

Lemma selectProfile_launch_failure_witness :
  let w := mkWorld 103 None [] [] (fun _ => Raised "No such file") (fun _ => Returned tt)
             [] [] [] in
  let m := manager_of (handle_browser_opening "chrome" None (init None) (calm 100)) in
  state m = PROFILE_SELECTION /\
  PyDict.get profile_map (PyStr.strip (PyStr.lower "Work")) = Some "Profile 2" /\
  popen w (Shell (chrome_with_profile "Profile 2")) = Raised "No such file" /\
  outcome_of (handle_profile_selection "Work" m w) =
    Returned (false, "Failed to open profile: No such file") /\
  state (manager_of (handle_profile_selection "Work" m w)) = IDLE.
Proof.
  intros w m. split; [reflexivity|]. split; [reflexivity|]. split; [reflexivity|].
  destruct (selectProfile_launch_failure "Work" "Profile 2" "No such file" m w
              eq_refl eq_refl eq_refl) as [Hout [Hstate _]].
  split; [exact Hout | exact Hstate].
Defined.

(** Stopping the process tracked before is best effort: whether
    [terminate] raises or returns changes neither the result of
    [selectProfile], nor the state, the profile or the handle it leaves,
    nor what is launched and what is told to terminate. *)
Theorem selectProfile_terminate_best_effort (text : string)
  (f : Process -> Outcome unit) (m : WorkflowManager) (w : World) :
  let r1 := handle_profile_selection text m w in
  let r2 := handle_profile_selection text m (with_terminate f w) in
  outcome_of r1 = outcome_of r2 /\
  state (manager_of r1) = state (manager_of r2) /\
  waiting_for (manager_of r1) = waiting_for (manager_of r2) /\
  selected_profile (manager_of r1) = selected_profile (manager_of r2) /\
  browser_process (manager_of r1) = browser_process (manager_of r2) /\
  launched (world_of r1) = launched (world_of r2) /\
  terminated (world_of r1) = terminated (world_of r2).
Proof.
  intros r1 r2. subst r1 r2.
  unfold handle_profile_selection, bind, try_except, self.
  destruct (negb (WorkflowState_eqb (state m) PROFILE_SELECTION)); [repeat split|].
  destruct (PyStr.truthy (PyDict.get profile_map (PyStr.strip (PyStr.lower text))))
    as [dir|]; [|repeat split].
  destruct (browser_process m) as [old|].
  - unfold Process_terminate, time_sleep, ret, with_terminate.
    cbn -[chrome_with_profile].
    destruct (terminate w old) as [[]|e1]; destruct (f old) as [[]|e2];
      cbn -[chrome_with_profile];
      destruct (popen w (Shell (chrome_with_profile dir)));
      cbn -[chrome_with_profile]; repeat split.
  - unfold ret, with_terminate. cbn -[chrome_with_profile].
    destruct (popen w (Shell (chrome_with_profile dir)));
      cbn -[chrome_with_profile]; repeat split.
Qed.

(** ** Invariants of the session data *)

Lemma handle_browser_opening_session (browser_name : string) (profile : option string)
  (m : WorkflowManager) (w : World) :
  session_consistent m ->
  session_consistent (manager_of (handle_browser_opening browser_name profile m w)).
Proof.
  intros (Hstates & Hps & Hnps & Hproc & Hstamp & Hsel & Hplan).
  assert (Hprofile : PyStr.truthy profile <> None -> profile <> Some "").
  { destruct (PyStrFacts.truthy_cases profile) as [[-> _] | [s [_ [-> Hne]]]];
      [congruence | intros _ [= H]; contradiction]. }
  unfold handle_browser_opening, bind, try_except.
  cbn -[PyStr.lower PyStr.truthy String.eqb chrome_with_profile _get_chrome_profile].
  destruct (PyStr.lower browser_name =? "chrome").
  - destruct (PyStr.truthy profile) eqn:Ht;
      cbn -[PyStr.lower PyStr.truthy String.eqb chrome_with_profile _get_chrome_profile];
      split_run;
      cbn -[PyStr.lower PyStr.truthy String.eqb chrome_with_profile _get_chrome_profile];
      unfold manager_of; cbn [fst snd]; close_session;
      apply Hprofile; discriminate.
  - split_run;
      cbn -[PyStr.lower PyStr.truthy String.eqb chrome_with_profile _get_chrome_profile];
      unfold manager_of; cbn [fst snd]; close_session.
Qed.

Lemma handle_profile_selection_session (text : string)
  (m : WorkflowManager) (w : World) :
  session_consistent m ->
  session_consistent (manager_of (handle_profile_selection text m w)).
Proof.
  intros Hm. pose proof Hm as (Hstates & Hps & Hnps & Hproc & Hstamp & Hsel & Hplan).
  unfold handle_profile_selection, bind, try_except, self.
  destruct (negb (WorkflowState_eqb (state m) PROFILE_SELECTION)); [exact Hm|].
  destruct (PyDict.get profile_map (PyStr.strip (PyStr.lower text))) as [dir|] eqn:Hget;
    [|exact Hm].
  assert (Hnorm : PyStr.strip (PyStr.lower text) <> "").
  { intros E. rewrite E in Hget. discriminate Hget. }
  destruct (PyStr.truthy (Some dir)); [|exact Hm].
  cbn -[chrome_with_profile].
  repeat (split_run; cbn -[chrome_with_profile]);
    unfold manager_of; cbn [fst snd]; close_session.
Qed.

Lemma handle_website_opening_manager (website_name : string)
  (m : WorkflowManager) (w : World) :
  manager_of (handle_website_opening website_name m w) =
  with_current_url (current_url (manager_of (handle_website_opening website_name m w))) m.
Proof.
  unfold handle_website_opening, bind. rewrite no_browser_open_eq.
  destruct (negb (state_in (state m) [BROWSER_READY; IDLE]) &&
            match listTabs m w with [] => true | _ => false end).
  - unfold manager_of, ret. cbn [fst snd]. destruct m; reflexivity.
  - reflexivity.
Qed.

Lemma perform_session (op : Operation) (m : WorkflowManager) (w : World) :
  session_consistent m ->
  session_consistent (manager_of (perform op m w)).
Proof.
  intros Hm. destruct op as [bn pr | text | site | q pl | | wn st | | |];
    cbn [perform]; rewrite ?void_manager.
  - now apply handle_browser_opening_session.
  - now apply handle_profile_selection_session.
  - rewrite handle_website_opening_manager. exact Hm.
  - rewrite handle_search_query_eq. exact Hm.
  - destruct Hm as (Hstates & Hps & Hnps & Hproc & Hstamp & Hsel & Hplan).
    unfold cancel_workflow, bind, assign, manager_of. cbn [fst snd]. close_session.
  - destruct Hm as (Hstates & Hps & Hnps & Hproc & Hstamp & Hsel & Hplan).
    unfold start_workflow, bind, assign, time_time, manager_of. cbn [fst snd].
    close_session; match goal with H : Some _ = Some _ |- _ => injection H as <- end;
      reflexivity.
  - now rewrite (proj1 (is_state_expired_pure m w)).
  - exact Hm.
  - now rewrite get_help_message_pure.
Qed.

Lemma reachable_session (m : WorkflowManager) :
  reachable m -> session_consistent m.
Proof.
  induction 1 as [tm | m op w _ IH].
  - unfold session_consistent. cbn. repeat split; intros; try discriminate; auto.
  - now apply perform_session.
Qed.

(** After every call the machine is in one of three states: [IDLE],
    [PROFILE_SELECTION] or [BROWSER_READY].  [BROWSER_STARTING] is only
    passed through inside [startBrowserOpening], and [SEARCHING],
    [VIDEO_PLAYING] and [APP_OPENING] are never entered; so the help
    message is always one of the three written for these states. *)
Theorem reachable_states_closed (m : WorkflowManager) (w : World) :
  reachable m ->
  (state m = IDLE \/ state m = PROFILE_SELECTION \/ state m = BROWSER_READY) /\
  In (outcome_of (get_help_message m w))
    [Returned "Ready! Try: 'Open Chrome', 'Open Firefox', or 'What apps are running?'";
     Returned "Chrome is open. Say: 'Profile 1', 'Amaan', 'Profile 2', or 'Default'";
     Returned "Browser ready! Say: 'YouTube', 'Gmail', 'Search for X'"].
Proof.
  intros Hreach. destruct (reachable_session m Hreach) as [Hstates _].
  split; [exact Hstates|].
  unfold get_help_message, bind, self.
  destruct Hstates as [-> | [-> | ->]]; cbn; tauto.
Qed.

Lemma reachable_states_closed_witness :
  reachable (manager_of (perform (startBrowserOpening "firefox" None)
                           (init None) (calm 100))) /\
  state (manager_of (perform (startBrowserOpening "firefox" None)
                       (init None) (calm 100))) = BROWSER_READY.
Proof.
  assert (Hreach : reachable (manager_of (perform (startBrowserOpening "firefox" None)
                                            (init None) (calm 100)))).
  { apply reachable_perform, reachable_init. }
  split; [exact Hreach|].
  destruct (reachable_states_closed _ (calm 103) Hreach) as [[H | [H | H]] _];
    [discriminate H | discriminate H | exact H].
Defined.

(** After every call [waiting_for] is decided by the state alone: it is
    the profile prompt in [PROFILE_SELECTION] and [None] in every other
    state, [BROWSER_READY] included. *)
Theorem waiting_for_by_state (m : WorkflowManager) :
  reachable m ->
  waiting_for m =
  if WorkflowState_eqb (state m) PROFILE_SELECTION then Some profile_prompt else None.
Proof.
  intros Hreach. destruct (reachable_session m Hreach) as (_ & Hps & Hnps & _).
  destruct (WorkflowState_eqb (state m) PROFILE_SELECTION) eqn:E.
  - apply Hps. now apply WorkflowState_eqb_eq.
  - apply Hnps. now apply WorkflowState_eqb_neq.
Qed.

Lemma waiting_for_by_state_witness :
  reachable (manager_of (perform (startBrowserOpening "chrome" (Some "work"))
                           (init None) (calm 100))) /\
  waiting_for (manager_of (perform (startBrowserOpening "chrome" (Some "work"))
                             (init None) (calm 100))) = None.
Proof.
  assert (Hreach : reachable (manager_of (perform (startBrowserOpening "chrome" (Some "work"))
                                            (init None) (calm 100)))).
  { apply reachable_perform, reachable_init. }
  split; [exact Hreach|].
  exact (waiting_for_by_state _ Hreach).
Defined.

Lemma handle_profile_selection_terminates (text dir : string) (process : Process)
  (m : WorkflowManager) (w : World) :
  state m = PROFILE_SELECTION ->
  PyDict.get profile_map (PyStr.strip (PyStr.lower text)) = Some dir ->
  browser_process m = Some process ->
  terminated (world_of (handle_profile_selection text m w))
    = (terminated w ++ [process])%list.
Proof.
  intros Hstate Hget Hproc.
  assert (Hdir : PyStr.truthy (Some dir) = Some dir).
  { apply get_some_in in Hget. unfold profile_map in Hget. cbn [In] in Hget.
    repeat (destruct Hget as [Hget | Hget];
            [injection Hget as _ <-; reflexivity|]).
    contradiction. }
  unfold handle_profile_selection, bind, self.
  rewrite Hstate. cbn [WorkflowState_eqb negb].
  rewrite Hget, Hdir, Hproc.
  unfold try_except, bind, Process_terminate, time_sleep, ret.
  destruct (terminate w process) as [[]|e0]; cbn -[chrome_with_profile];
    destruct (popen w (Shell (chrome_with_profile dir))); reflexivity.
Qed.

(** Whenever the machine waits in [PROFILE_SELECTION] a browser process
    is tracked, so [selectProfile] with an input that resolves always
    tells that process to terminate, once, and launches Chrome on the
    directory resolved. *)
Theorem profile_selection_tracks_process (m : WorkflowManager) (text dir : string)
  (w : World) :
  reachable m ->
  state m = PROFILE_SELECTION ->
  PyDict.get profile_map (PyStr.strip (PyStr.lower text)) = Some dir ->
  exists process : Process,
    browser_process m = Some process /\
    terminated (world_of (handle_profile_selection text m w))
      = (terminated w ++ [process])%list /\
    launched (world_of (handle_profile_selection text m w))
      = (launched w ++ [Shell (chrome_with_profile dir)])%list.
Proof.
  intros Hreach Hstate Hget.
  destruct (reachable_session m Hreach) as (_ & _ & _ & Hproc & _).
  destruct (browser_process m) as [process|] eqn:Hp; [|now elim (Hproc Hstate)].
  exists process. split; [reflexivity|]. split.
  - now apply (handle_profile_selection_terminates text dir).
  - apply (handle_profile_selection_resolved text dir m w Hstate Hget).
Qed.

Lemma profile_selection_tracks_process_witness :
  let m := manager_of (perform (startBrowserOpening "chrome" None) (init None) (calm 100)) in
  reachable m /\
  state m = PROFILE_SELECTION /\
  PyDict.get profile_map (PyStr.strip (PyStr.lower "Amaan")) = Some "Profile 1" /\
  terminated (world_of (handle_profile_selection "Amaan" m (calm 103))) = [4242].
Proof.
  intros m.
  assert (Hreach : reachable m) by apply reachable_perform, reachable_init.
  split; [exact Hreach|]. split; [reflexivity|]. split; [reflexivity|].
  destruct (profile_selection_tracks_process m "Amaan" "Profile 1" (calm 103)
              Hreach eq_refl eq_refl) as [process [Hp [Ht _]]].
  injection Hp as <-. exact Ht.
Defined.

(** No call moves the cursor of the plan: whenever a plan exists its
    cursor is at the start and its data bag is empty, and
    [getCurrentStateInfo] reports the progress "0/n" for a plan of n
    steps. *)
Theorem plan_cursor_never_moves (m : WorkflowManager) (wf : Workflow) (w : World) :
  reachable m ->
  current_workflow m = Some wf ->
  current_step wf = 0 /\
  data wf = [] /\
  outcome_of (get_current_state_info m w) =
    Returned {| info_state := value (state m);
                info_waiting_for := waiting_for m;
                info_workflow := Some (name wf);
                info_workflow_progress :=
                  Some ("0/" ++ PyStr.of_nat (List.length (steps wf))) |}.
Proof.
  intros Hreach Hwf.
  destruct (reachable_session m Hreach) as (_ & _ & _ & _ & _ & _ & Hplan).
  destruct (Hplan wf Hwf) as [Hcursor Hdata].
  split; [exact Hcursor|]. split; [exact Hdata|].
  unfold get_current_state_info, bind, self, ret, outcome_of. cbn [fst].
  rewrite Hwf. cbn [option_map]. unfold get_progress. now rewrite Hcursor.
Qed.

Lemma plan_cursor_never_moves_witness :
  let m := manager_of (perform (selectProfile "work")
             (manager_of (perform (startBrowserOpening "chrome" None)
                (manager_of (perform (startWorkflow "browse" ["chrome"; "profile"; "site"])
                               (init None) (calm 90)))
                (calm 100)))
             (calm 103)) in
  reachable m /\
  state m = BROWSER_READY /\
  option_map name (current_workflow m) = Some "browse" /\
  option_map info_workflow_progress
    (match outcome_of (get_current_state_info m (calm 110)) with
     | Returned info => Some info
     | Raised _ => None
     end) = Some (Some "0/3").
Proof.
  intros m.
  assert (Hreach : reachable m).
  { repeat apply reachable_perform. apply reachable_init. }
  split; [exact Hreach|]. split; [reflexivity|]. split; [reflexivity|].
  destruct (plan_cursor_never_moves m (mkWorkflow "browse" ["chrome"; "profile"; "site"] 0 [] 90)
              (calm 110) Hreach eq_refl) as [_ [_ Hinfo]].
  rewrite Hinfo. reflexivity.
Defined.

(** ** What a call does to the world *)

(** A call does one of three things to the logs: nothing; or it opens
    one URL and touches no process; or it launches one process, opens no
    URL, and tells at most one process to terminate, the one tracked in
    [browser_process]. *)
Theorem perform_effects (op : Operation) (m : WorkflowManager) (w : World) :
  let w' := world_of (perform op m w) in
  (launched w' = launched w /\ terminated w' = terminated w /\ opened w' = opened w) \/
  (exists url, opened w' = (opened w ++ [url])%list /\
               launched w' = launched w /\ terminated w' = terminated w) \/
  (exists cmd, launched w' = (launched w ++ [cmd])%list /\
               opened w' = opened w /\
               (terminated w' = terminated w \/
                exists process, browser_process m = Some process /\
                                terminated w' = (terminated w ++ [process])%list)).
Proof.
  intros w'. subst w'.
  destruct op as [bn pr | text | site | q pl | | wn st | | |];
    cbn [perform]; rewrite ?void_world.
  - right. right. unfold handle_browser_opening, bind, try_except.
    cbn -[PyStr.lower PyStr.truthy String.eqb chrome_with_profile _get_chrome_profile].
    split_run;
      cbn -[PyStr.lower PyStr.truthy String.eqb chrome_with_profile _get_chrome_profile];
      eexists; (split; [reflexivity|]); (split; [reflexivity|]); left; reflexivity.
  - unfold handle_profile_selection, bind, try_except, self.
    destruct (negb (WorkflowState_eqb (state m) PROFILE_SELECTION));
      [left; repeat split|].
    destruct (PyStr.truthy (PyDict.get profile_map (PyStr.strip (PyStr.lower text))));
      [|left; repeat split].
    right. right. cbn -[chrome_with_profile].
    destruct (browser_process m) as [old|];
      repeat (split_run; cbn -[chrome_with_profile]);
      eexists; (split; [reflexivity|]); (split; [reflexivity|]);
      first [left; reflexivity | right; eexists; split; reflexivity].
  - unfold handle_website_opening, bind. rewrite no_browser_open_eq.
    destruct (negb (state_in (state m) [BROWSER_READY; IDLE]) &&
              match listTabs m w with [] => true | _ => false end).
    + left. repeat split.
    + right. left. eexists. repeat split.
  - right. left. rewrite handle_search_query_eq. eexists. repeat split.
  - left. repeat split.
  - left. repeat split.
  - left. rewrite (proj2 (is_state_expired_pure m w)). repeat split.
  - left. repeat split.
  - left. unfold get_help_message, bind, self. destruct (state m); repeat split.
Qed.

(** ** More on expiry *)

(** Expiry is monotone in time: once a manager reports its state
    expired it reports so at every later reading of the clock. *)
Theorem expiry_is_monotone (m : WorkflowManager) (w w' : World) :
  (clock w <= clock w')%Q ->
  outcome_of (is_state_expired m w) = Returned true ->
  outcome_of (is_state_expired m w') = Returned true.
Proof.
  intros Hle. rewrite !is_state_expired_answer.
  destruct (state_started_at m) as [t|]; [|discriminate].
  intros [= H]. apply andb_true_iff in H. destruct H as [Ht Hgt].
  f_equal. apply andb_true_iff. split; [exact Ht|].
  apply Qgtb_spec in Hgt. apply Qgtb_spec. lra.
Qed.

Lemma expiry_is_monotone_witness :
  let m := manager_of (perform (startBrowserOpening "chrome" None) (init None) (calm 100)) in
  (clock (calm 113) <= clock (calm 200))%Q /\
  outcome_of (is_state_expired m (calm 113)) = Returned true /\
  outcome_of (is_state_expired m (calm 200)) = Returned true.
Proof.
  intros m.
  assert (Hle : (clock (calm 113) <= clock (calm 200))%Q) by (cbn; lra).
  assert (Hfirst : outcome_of (is_state_expired m (calm 113)) = Returned true)
    by reflexivity.
  split; [exact Hle|]. split; [exact Hfirst|].
  exact (expiry_is_monotone m (calm 113) (calm 200) Hle Hfirst).
Defined.

(** Outside [IDLE] the time of entry is always on record, so there the
    state is reported expired exactly when more than 10 seconds have
    passed since it was entered (the entry time 0, which reads as no
    time at all, apart). *)
Theorem non_idle_state_expires (m : WorkflowManager) :
  reachable m ->
  state m <> IDLE ->
  exists entered : Q,
    state_started_at m = Some entered /\
    forall w : World,
      ~ (entered == 0)%Q ->
      (outcome_of (is_state_expired m w) = Returned true <->
       (10 < clock w - entered)%Q).
Proof.
  intros Hreach Hstate.
  destruct (reachable_session m Hreach) as (_ & _ & _ & _ & Hstamp & _).
  destruct (state_started_at m) as [t|] eqn:Ht; [|now elim (Hstamp Hstate)].
  exists t. split; [reflexivity|]. intros w Hnz.
  rewrite is_state_expired_answer, Ht, (reachable_timeout m Hreach).
  apply float_truthy_spec in Hnz. rewrite Hnz. cbn [andb].
  rewrite <- Qgtb_spec. split; [now intros [= ->] | now intros ->].
Qed.

Lemma non_idle_state_expires_witness :
  let m := manager_of (perform (startBrowserOpening "chrome" None) (init None) (calm 100)) in
  reachable m /\ state m <> IDLE /\
  exists entered : Q, state_started_at m = Some entered.
Proof.
  intros m.
  assert (Hreach : reachable m) by apply reachable_perform, reachable_init.
  assert (Hstate : state m <> IDLE) by discriminate.
  split; [exact Hreach|]. split; [exact Hstate|].
  destruct (non_idle_state_expires m Hreach Hstate) as [entered [Hentered _]].
  exists entered. exact Hentered.
Defined.

(** ** Resolving names *)

Lemma get_in_nodup {V : Type} (d : PyDict.dict V) (k : string) (v : V) :
  NoDup (PyDict.keys d) -> In (k, v) d -> PyDict.get d k = Some v.
Proof.
  induction d as [|[k' v'] d IH]; simpl; [contradiction|].
  intros Hnd [Hhead | Htail].
  - injection Hhead as -> ->. now rewrite String.eqb_refl.
  - inversion Hnd as [|? ? Hnotin Hnd']; subst.
    destruct (String.eqb_spec k' k) as [->|Hne].
    + exfalso. apply Hnotin. apply (in_map fst) in Htail. exact Htail.
    + now apply IH.
Qed.

Lemma WEBSITE_URLS_nodup : NoDup (PyDict.keys WEBSITE_URLS).
Proof.
  unfold WEBSITE_URLS. cbn [PyDict.keys map fst].
  repeat (apply NoDup_cons; [cbn [In]; intuition discriminate|]).
  apply NoDup_nil.
Qed.

(** When [openWebsite] goes ahead (the state is [BROWSER_READY] or
    [IDLE], or a tab is enumerated) it opens one URL, records that URL in
    [current_url] and launches nothing.  A name that is a key of the site
    table in any letter case gives the URL of the table; any other name
    gives the Google search URL with the name appended as it was said,
    blanks included. *)
Theorem openWebsite_resolves_url (website_name : string)
  (m : WorkflowManager) (w : World) :
  state m = BROWSER_READY \/ state m = IDLE \/ listTabs m w <> [] ->
  let r := handle_website_opening website_name m w in
  exists url : string,
    outcome_of r = Returned (true, "Opening " ++ website_name) /\
    opened (world_of r) = (opened w ++ [url])%list /\
    current_url (manager_of r) = Some url /\
    launched (world_of r) = launched w /\
    (forall site u, In (site, u) WEBSITE_URLS ->
                    PyStr.lower website_name = site -> url = u) /\
    (~ In (PyStr.lower website_name) (PyDict.keys WEBSITE_URLS) ->
     url = "https://www.google.com/search?q=" ++ website_name).
Proof.
  intros Hgo r. subst r.
  unfold handle_website_opening, bind. rewrite no_browser_open_eq.
  assert (Hfree : negb (state_in (state m) [BROWSER_READY; IDLE]) &&
                  match listTabs m w with [] => true | _ => false end = false).
  { destruct Hgo as [-> | [-> | Htabs]]; [reflexivity | reflexivity |].
    destruct (listTabs m w); [contradiction | apply andb_false_r]. }
  rewrite Hfree.
  eexists. split; [reflexivity|]. split; [reflexivity|].
  split; [reflexivity|]. split; [reflexivity|]. split.
  - intros site u Hin Hsite.
    rewrite Hsite, (get_in_nodup _ _ _ WEBSITE_URLS_nodup Hin).
    unfold WEBSITE_URLS in Hin. cbn [In] in Hin.
    repeat (destruct Hin as [Hin | Hin]; [injection Hin as _ <-; reflexivity|]).
    contradiction.
  - intros Hnot. apply get_none_iff in Hnot. now rewrite Hnot.
Qed.

Lemma openWebsite_resolves_url_witness :
  (state (init None) = BROWSER_READY \/ state (init None) = IDLE
   \/ listTabs (init None) (calm 100) <> []) /\
  opened (world_of (handle_website_opening "hacker news" (init None) (calm 100)))
    = ["https://www.google.com/search?q=hacker news"] /\
  opened (world_of (handle_website_opening "GitHub" (init None) (calm 100)))
    = ["https://github.com"].
Proof.
  assert (Hgo : state (init None) = BROWSER_READY \/ state (init None) = IDLE
                \/ listTabs (init None) (calm 100) <> []).
  { right. left. reflexivity. }
  split; [exact Hgo|]. split.
  - destruct (openWebsite_resolves_url "hacker news" (init None) (calm 100) Hgo)
      as [url [_ [Hopened [_ [_ [_ Hunknown]]]]]].
    rewrite Hopened, Hunknown; [reflexivity|].
    cbn. intuition discriminate.
  - destruct (openWebsite_resolves_url "GitHub" (init None) (calm 100) Hgo)
      as [url [_ [Hopened [_ [_ [Hknown _]]]]]].
    rewrite Hopened, (Hknown "github" "https://github.com"); [reflexivity| |reflexivity].
    cbn. tauto.
Defined.

Lemma lower_char_idempotent (c : ascii) :
  PyStr.lower_char (PyStr.lower_char c) = PyStr.lower_char c.
Proof. destruct c as [[] [] [] [] [] [] [] []]; reflexivity. Qed.

Lemma lower_idempotent (s : string) : PyStr.lower (PyStr.lower s) = PyStr.lower s.
Proof.
  induction s as [|c s IH]; simpl; [reflexivity|].
  now rewrite lower_char_idempotent, IH.
Qed.

(** [_get_chrome_profile] answers for every name with one of the three
    directories, and the letter case of the name plays no part. *)
Theorem get_chrome_profile_total (profile_name : string) :
  In (_get_chrome_profile profile_name) directories /\
  _get_chrome_profile (PyStr.lower profile_name) = _get_chrome_profile profile_name.
Proof.
  split.
  - unfold _get_chrome_profile, PyDict.get_default.
    destruct (PyDict.get profile_map (PyStr.lower profile_name)) as [dir|] eqn:Hget.
    + apply get_some_in in Hget. unfold profile_map in Hget. cbn [In] in Hget.
      repeat (destruct Hget as [Hget | Hget];
              [injection Hget as _ <-; cbn; tauto|]).
      contradiction.
    + cbn. tauto.
  - unfold _get_chrome_profile. now rewrite lower_idempotent.
Qed.

(** ** The Tab Directory *)






Lemma find_first {A : Type} (f : A -> bool) (l : list A) (x : A) :
  find f l = Some x ->
  exists earlier later,
    l = (earlier ++ x :: later)%list /\ f x = true /\
    forall y, In y earlier -> f y = false.
Proof.
  induction l as [|a l IH]; simpl; [discriminate|].
  destruct (f a) eqn:Hfa.
  - intros [= ->]. exists [], l. repeat split; [exact Hfa | contradiction].
  - intros H. destruct (IH H) as [earlier [later [-> [Hx Hearlier]]]].
    exists (a :: earlier), later. repeat split; [exact Hx|].
    intros y [<- | Hy]; [exact Hfa | now apply Hearlier].
Qed.

Lemma tab_matches_spec (patterns : list string) (tab : Tab) :
  tab_matches patterns tab = true <->
  exists pattern, In pattern patterns /\ mentions pattern tab.
Proof.
  unfold tab_matches. rewrite existsb_exists.
  split; intros [pattern [Hin H]]; exists pattern; (split; [exact Hin|]);
    now apply mentions_contains.
Qed.

(** [find_tab_by_website] changes nothing and returns the first tab, in
    the order of the Tab Directory, whose lower-cased title contains one
    of the patterns of the site (the site name itself when the site is
    not in the pattern table); it returns [None] exactly when no tab
    does. *)
Theorem find_tab_by_website_first (tm : BrowserTabManager) (website_name : string)
  (m : WorkflowManager) (w : World) :
  let site := PyStr.strip (PyStr.lower website_name) in
  let patterns := PyDict.get_default WEBSITE_PATTERNS site [site] in
  let fits tab := exists pattern, In pattern patterns /\ mentions pattern tab in
  exists (tabs : list Tab) (found : option Tab),
    get_all_tabs tm m w = (Returned tabs, m, w) /\
    find_tab_by_website tm website_name m w = (Returned found, m, w) /\
    match found with
    | Some tab =>
        exists earlier later,
          tabs = (earlier ++ tab :: later)%list /\ fits tab /\
          forall other, In other earlier -> ~ fits other
    | None => forall tab, In tab tabs -> ~ fits tab
    end.
Proof.
  intros site patterns fits.
  destruct (get_all_tabs_returns tm m w) as [tabs Htabs].
  exists tabs, (find (tab_matches patterns) tabs).
  split; [exact Htabs|]. split.
  - unfold find_tab_by_website, bind. rewrite Htabs.
    destruct tabs; reflexivity.
  - destruct (find (tab_matches patterns) tabs) as [tab|] eqn:Hfind.
    + destruct (find_first _ _ _ Hfind) as [earlier [later [Heq [Hfit Hearlier]]]].
      exists earlier, later. split; [exact Heq|]. split.
      * now apply tab_matches_spec.
      * intros other Hin Hfits. apply tab_matches_spec in Hfits.
        rewrite (Hearlier other Hin) in Hfits. discriminate Hfits.
    + intros tab Hin Hfits. apply tab_matches_spec in Hfits.
      rewrite (find_none _ _ Hfind tab Hin) in Hfits. discriminate Hfits.
Qed.

(** [is_website_open] answers true exactly when some enumerated tab has
    a lower-cased title that contains one of the patterns of the site. *)
Theorem is_website_open_iff (tm : BrowserTabManager) (website_name : string)
  (m : WorkflowManager) (w : World) :
  let site := PyStr.strip (PyStr.lower website_name) in
  let patterns := PyDict.get_default WEBSITE_PATTERNS site [site] in
  exists tabs : list Tab,
    get_all_tabs tm m w = (Returned tabs, m, w) /\
    (is_website_open tm website_name m w = (Returned true, m, w) <->
     exists tab pattern, In tab tabs /\ In pattern patterns /\ mentions pattern tab).
Proof.
  intros site patterns.
  destruct (get_all_tabs_returns tm m w) as [tabs Htabs].
  exists tabs. split; [exact Htabs|].
  assert (Hrun : is_website_open tm website_name m w =
                 (Returned (match find (tab_matches patterns) tabs with
                            | Some _ => true | None => false end), m, w)).
  { unfold is_website_open, find_tab_by_website, bind. rewrite Htabs.
    destruct tabs; reflexivity. }
  rewrite Hrun.
  destruct (find (tab_matches patterns) tabs) as [tab|] eqn:Hfind.
  - split; [intros _ | reflexivity].
    destruct (find_some _ _ Hfind) as [Hin Hfit].
    apply tab_matches_spec in Hfit. destruct Hfit as [pattern [Hp Hm]].
    now exists tab, pattern.
  - split; [discriminate|].
    intros [tab [pattern [Hin [Hp Hm]]]].
    assert (Hfit : tab_matches patterns tab = true).
    { apply tab_matches_spec. now exists pattern. }
    rewrite (find_none _ _ Hfind tab Hin) in Hfit. discriminate Hfit.
Qed.

(** ** The Context Store *)

Lemma add_to_history_length (now : Q) (command action : string)
  (entities : option (PyDict.dict string)) (c : Context.ContextManager) :
  List.length (Context.conversation_history c) <= Context.max_history c ->
  List.length (Context.conversation_history
                 (Context.add_to_history now command action entities c))
  = Nat.min (S (List.length (Context.conversation_history c))) (Context.max_history c).
Proof.
  intros Hle. unfold Context.add_to_history.
  cbn [Context.conversation_history Context.max_history].
  rewrite length_app. cbn [List.length]. rewrite Nat.add_1_r.
  destruct (Nat.ltb_spec (Context.max_history c)
              (S (List.length (Context.conversation_history c)))) as [Hfull | Hroom].
  - destruct (Context.conversation_history c) as [|e h]; cbn [app tl List.length] in *.
    + lia.
    + rewrite length_app. cbn [List.length]. lia.
  - rewrite length_app. cbn [List.length]. lia.
Qed.

(** [add_to_history] keeps the history within [max_history]: while
    there is room the new entry is appended; once the history is full
    the oldest entry is dropped to make room.  The entry carries the
    command, the action and the application last mentioned. *)
Theorem add_to_history_bounded (now : Q) (command action : string)
  (entities : option (PyDict.dict string)) (c : Context.ContextManager) :
  List.length (Context.conversation_history c) <= Context.max_history c ->
  let c' := Context.add_to_history now command action entities c in
  let history := Context.conversation_history c in
  Context.max_history c' = Context.max_history c /\
  List.length (Context.conversation_history c') <= Context.max_history c /\
  exists entry : Context.Entry,
    Context.user_command entry = command /\
    Context.assistant_action entry = action /\
    Context.timestamp entry = now /\
    Context.app_mentioned entry = Context.last_app_mentioned c /\
    (List.length history < Context.max_history c ->
     Context.conversation_history c' = (history ++ [entry])%list) /\
    (List.length history = Context.max_history c -> 0 < Context.max_history c ->
     Context.conversation_history c' = (tl history ++ [entry])%list).
Proof.
  intros Hle c' history. subst c' history.
  split; [reflexivity|]. split.
  - rewrite add_to_history_length by exact Hle. lia.
  - exists (Context.mkEntry now command action
              match entities with Some (e :: es) => e :: es | _ => [] end
              (Context.last_app_mentioned c)).
    split; [reflexivity|]. split; [reflexivity|].
    split; [reflexivity|]. split; [reflexivity|].
    unfold Context.add_to_history.
    cbn [Context.conversation_history Context.max_history].
    rewrite length_app. cbn [List.length]. split.
    + intros Hroom.
      destruct (Nat.ltb_spec (Context.max_history c)
                  (List.length (Context.conversation_history c) + 1)); [lia | reflexivity].
    + intros Hfull Hpos.
      destruct (Nat.ltb_spec (Context.max_history c)
                  (List.length (Context.conversation_history c) + 1)); [|lia].
      destruct (Context.conversation_history c); [cbn in Hfull; lia | reflexivity].
Qed.

Lemma add_to_history_bounded_witness :
  List.length (Context.conversation_history Context.init)
    <= Context.max_history Context.init /\
  List.length (Context.conversation_history
                 (Context.add_to_history 100 "open chrome" "opened chrome" None
                    Context.init)) <= 10.
Proof.
  assert (H : List.length (Context.conversation_history Context.init)
              <= Context.max_history Context.init) by (cbn; lia).
  split; [exact H|].
  destruct (add_to_history_bounded 100 "open chrome" "opened chrome" None Context.init H)
    as [_ [Hbound _]].
  exact Hbound.
Defined.

Lemma tl_skipn {A : Type} (k : nat) (l : list A) : tl (skipn k l) = skipn (S k) l.
Proof.
  revert l. induction k as [|k IH]; intros [|a l]; try reflexivity.
  cbn [skipn]. rewrite IH. destruct l; reflexivity.
Qed.

Lemma map_tl_comm {A B : Type} (f : A -> B) (l : list A) : map f (tl l) = tl (map f l).
Proof. destruct l; reflexivity. Qed.

(** After any run of commands recorded in a fresh context the history
    holds the commands of the last ten at most, oldest first. *)
Theorem history_keeps_last_ten (commands : list (Q * string * string)) :
  let record c x :=
    Context.add_to_history (fst (fst x)) (snd (fst x)) (snd x) None c in
  let c := fold_left record commands Context.init in
  List.length (Context.conversation_history c) = Nat.min (List.length commands) 10 /\
  map Context.user_command (Context.conversation_history c) =
    skipn (List.length commands - 10) (map (fun x => snd (fst x)) commands).
Proof.
  intros record c. subst c.
  assert (Hinv : Context.max_history (fold_left record commands Context.init) = 10 /\
                 List.length (Context.conversation_history
                                (fold_left record commands Context.init))
                 = Nat.min (List.length commands) 10 /\
                 map Context.user_command
                   (Context.conversation_history
                      (fold_left record commands Context.init)) =
                 skipn (List.length commands - 10)
                   (map (fun x => snd (fst x)) commands)).
  { induction commands as [|x commands IH] using rev_ind.
    - repeat split.
    - destruct IH as [Hmax [Hlen Hmap]].
      rewrite fold_left_app. cbn [fold_left].
      set (c := fold_left record commands Context.init) in *.
      assert (Hle : List.length (Context.conversation_history c) <= Context.max_history c)
        by lia.
      destruct (add_to_history_bounded (fst (fst x)) (snd (fst x)) (snd x) None c Hle)
        as [Hmax' [_ [entry [Hcmd [_ [_ [_ [Hroom Hfull]]]]]]]].
      split; [unfold record at 1; congruence|].
      split.
      + unfold record at 1. rewrite add_to_history_length by exact Hle.
        rewrite length_app. cbn [List.length]. lia.
      + rewrite map_app, length_app. cbn [map List.length].
        destruct (Nat.lt_ge_cases (List.length commands) 10) as [Hshort | Hlong].
        * unfold record at 1. rewrite Hroom by lia.
          rewrite map_app, Hmap. cbn [map]. rewrite Hcmd.
          replace (List.length commands - 10) with 0 by lia.
          replace (List.length commands + 1 - 10) with 0 by lia.
          reflexivity.
        * unfold record at 1. rewrite Hfull by lia.
          rewrite map_app, map_tl_comm, Hmap, tl_skipn. cbn [map]. rewrite Hcmd.
          rewrite skipn_app, length_map.
          replace (List.length commands + 1 - 10) with (S (List.length commands - 10))
            by lia.
          replace (S (List.length commands - 10) - List.length commands) with 0 by lia.
          reflexivity. }
  destruct Hinv as [_ [Hlen Hmap]]. split; assumption.
Qed.

(** [get_recent_history] with a positive [n] returns the last [n]
    entries, all of them when there are fewer.  With [n] zero it returns
    the whole history, not the empty list: the slice [-0:] starts at the
    front. *)
Theorem get_recent_history_slice (c : Context.ContextManager) (n : Z) :
  let history := Context.conversation_history c in
  ((0 < n)%Z ->
   Context.get_recent_history c n
     = skipn (List.length history - Z.to_nat n) history /\
   List.length (Context.get_recent_history c n)
     = Nat.min (Z.to_nat n) (List.length history)) /\
  (n = 0%Z -> Context.get_recent_history c n = history).
Proof.
  intros history. subst history. unfold Context.get_recent_history.
  destruct (Context.conversation_history c) as [|e h] eqn:Hh.
  - split; [intros _; split; [now rewrite skipn_nil | cbn; lia] | reflexivity].
  - rewrite <- Hh. clear Hh. unfold PySeq.slice_from. split.
    + intros Hpos.
      destruct (Z.ltb_spec (- n) 0) as [_ | Hge]; [|lia].
      assert (Hfirst : Z.to_nat (Z.max 0 (Z.of_nat (List.length
                           (Context.conversation_history c)) + - n))
                       = List.length (Context.conversation_history c) - Z.to_nat n)
        by lia.
      rewrite Hfirst. split; [reflexivity|].
      rewrite length_skipn. lia.
    + intros ->. cbn [Z.opp]. destruct (Z.ltb_spec 0 0) as [Hlt | _]; [lia|].
      rewrite Z.min_l by lia. reflexivity.
Qed.

Lemma get_recent_history_slice_witness :
  let c := Context.add_to_history 3 "c" "z" None
             (Context.add_to_history 2 "b" "y" None
                (Context.add_to_history 1 "a" "x" None Context.init)) in
  (0 < 2)%Z /\
  map Context.user_command (Context.get_recent_history c 2) = ["b"; "c"] /\
  map Context.user_command (Context.get_recent_history c 0) = ["a"; "b"; "c"].
Proof.
  intros c.
  assert (Hpos : (0 < 2)%Z) by lia.
  split; [exact Hpos|].
  destruct (get_recent_history_slice c 2) as [Hlast _].
  destruct (get_recent_history_slice c 0) as [_ Hzero].
  rewrite (proj1 (Hlast Hpos)), (Hzero eq_refl). split; reflexivity.
Defined.

Lemma string_app_assoc (a b c : string) : (a ++ b) ++ c = a ++ b ++ c.
Proof. induction a as [|x a IH]; simpl; [reflexivity | now rewrite IH]. Qed.

Lemma vscode_has_code (s : string) :
  PyStr.contains "vscode" s = true -> PyStr.contains "code" s = true.
Proof.
  rewrite !PyStrFacts.contains_spec. intros [before [after H]].
  exists (before ++ "vs"), after. rewrite H, string_app_assoc. reflexivity.
Qed.

(** [extract_app_name] returns the first application of its list that
    occurs in the lower-cased command, and [None] exactly when none
    occurs.  It never returns "vscode": a command that contains "vscode"
    contains "code", which stands earlier in the list. *)
Theorem extract_app_name_first (command : string) :
  let occurs app := exists before after, PyStr.lower command = before ++ app ++ after in
  match Context.extract_app_name command with
  | Some app =>
      exists earlier later,
        Context.known_apps = (earlier ++ app :: later)%list /\ occurs app /\
        forall other, In other earlier -> ~ occurs other
  | None => forall app, In app Context.known_apps -> ~ occurs app
  end /\
  Context.extract_app_name command <> Some "vscode".
Proof.
  intros occurs. split.
  - unfold Context.extract_app_name.
    destruct (find (fun app => PyStr.contains app (PyStr.lower command))
                Context.known_apps) as [app|] eqn:Hfind.
    + destruct (find_first _ _ _ Hfind) as [earlier [later [Heq [Happ Hearlier]]]].
      exists earlier, later. split; [exact Heq|]. split.
      * now apply PyStrFacts.contains_spec.
      * intros other Hin Hoccurs. apply PyStrFacts.contains_spec in Hoccurs.
        rewrite (Hearlier other Hin) in Hoccurs. discriminate Hoccurs.
    + intros app Hin Hoccurs. apply PyStrFacts.contains_spec in Hoccurs.
      rewrite (find_none _ _ Hfind app Hin) in Hoccurs. discriminate Hoccurs.
  - unfold Context.extract_app_name, Context.known_apps. cbn [find].
    intros H.
    repeat match type of H with
           | context [if PyStr.contains ?a ?s then _ else _] =>
               destruct (PyStr.contains a s) eqn:?; [try discriminate H|]
           end;
      try discriminate H.
    match goal with
    | Hvs : PyStr.contains "vscode" _ = true, Hcode : PyStr.contains "code" _ = false |- _ =>
        apply vscode_has_code in Hvs; rewrite Hvs in Hcode; discriminate Hcode
    end.
Qed.

Lemma lower_app (a b : string) : PyStr.lower (a ++ b) = PyStr.lower a ++ PyStr.lower b.
Proof. induction a as [|x a IH]; simpl; [reflexivity | now rewrite IH]. Qed.

Lemma replace_from_lower (old new : string) (skip : nat) (s : string) :
  PyStr.lower new = new -> PyStr.lower s = s ->
  PyStr.lower (PySeq.replace_from old new skip s) = PySeq.replace_from old new skip s.
Proof.
  intros Hnew. revert skip. induction s as [|c s IH]; intros skip Hs.
  - cbn [PySeq.replace_from]. destruct (old =? ""); [exact Hnew | reflexivity].
  - cbn [PyStr.lower] in Hs. injection Hs as Hc Hs'.
    cbn [PySeq.replace_from]. destruct skip as [|k]; [|now apply IH].
    destruct (old =? "").
    + rewrite lower_app. cbn [PyStr.lower]. now rewrite Hnew, Hc, IH.
    + destruct (prefix old (String c s)).
      * rewrite lower_app. now rewrite Hnew, IH.
      * cbn [PyStr.lower]. now rewrite Hc, IH.
Qed.

(** The command [resolve_reference] returns is in lower case throughout,
    the application name it puts in included.  It is the lower-cased
    text itself when no application has been mentioned, and when the
    text contains none of the reference words. *)
Theorem resolve_reference_lower (c : Context.ContextManager) (text : string) :
  PyStr.lower (Context.resolve_reference c text) = Context.resolve_reference c text /\
  (Context.last_app_mentioned c = None \/ Context.last_app_mentioned c = Some "" ->
   Context.resolve_reference c text = PyStr.lower text) /\
  ((forall ref, In ref Context.references ->
                ~ exists before after, PyStr.lower text = before ++ ref ++ after) ->
   Context.resolve_reference c text = PyStr.lower text).
Proof.
  unfold Context.resolve_reference. split; [|split].
  - destruct (existsb _ Context.references); [|apply lower_idempotent].
    destruct (PyStr.truthy (Context.last_app_mentioned c)) as [app|];
      [|apply lower_idempotent].
    generalize (lower_idempotent text). generalize (PyStr.lower text).
    induction Context.references as [|ref refs IH]; intros s Hs; cbn [fold_left].
    + exact Hs.
    + apply IH. unfold PySeq.replace_all.
      apply replace_from_lower; [apply lower_idempotent | exact Hs].
  - intros [-> | ->]; cbn [PyStr.truthy String.eqb];
      destruct (existsb _ Context.references); reflexivity.
  - intros Hnone.
    destruct (existsb (fun word => PyStr.contains word (PyStr.lower text))
                Context.references) eqn:Hany; [|reflexivity].
    apply existsb_exists in Hany. destruct Hany as [ref [Hin Hocc]].
    apply PyStrFacts.contains_spec in Hocc. now elim (Hnone ref Hin).
Qed.

Lemma resolve_reference_lower_witness :
  (Context.last_app_mentioned Context.init = None \/
   Context.last_app_mentioned Context.init = Some "") /\
  Context.resolve_reference Context.init "Close It" = "close it".
Proof.
  assert (H : Context.last_app_mentioned Context.init = None \/
              Context.last_app_mentioned Context.init = Some "")
    by (left; reflexivity).
  split; [exact H|].
  destruct (resolve_reference_lower Context.init "Close It") as [_ [Hnone _]].
  exact (Hnone H).
Defined.

(** The alias table of the Context Store and that of the workflow
    manager give the same command line for every profile name, in any
    letter case, but "profile1" and "profile2": these the workflow
    manager resolves while the Context Store falls back to Default. *)
Theorem profile_tables_agree (profile_name : string) :
  (PyStr.lower profile_name <> "profile1" ->
   PyStr.lower profile_name <> "profile2" ->
   Context.get_chrome_profile_command profile_name
     = chrome_with_profile (_get_chrome_profile profile_name)) /\
  (PyStr.lower profile_name = "profile1" \/ PyStr.lower profile_name = "profile2" ->
   Context.get_chrome_profile_command profile_name = chrome_with_profile "Default" /\
   _get_chrome_profile profile_name <> "Default").
Proof.
  unfold Context.get_chrome_profile_command, _get_chrome_profile, chrome_with_profile,
    PyDict.get_default, Context.profiles, profile_map.
  generalize (PyStr.lower profile_name). intros k. split.
  - intros H1 H2. cbn [PyDict.get].
    repeat match goal with
           | |- context [String.eqb ?a k] =>
               destruct (String.eqb_spec a k) as [<- | ?]; [cbn; congruence|]
           end.
    reflexivity.
  - intros [-> | ->]; split; cbn; congruence.
Qed.

Lemma profile_tables_agree_witness :
  PyStr.lower "Work" <> "profile1" /\
  PyStr.lower "Work" <> "profile2" /\
  Context.get_chrome_profile_command "Work" = chrome_with_profile "Profile 2".
Proof.
  assert (H1 : PyStr.lower "Work" <> "profile1") by discriminate.
  assert (H2 : PyStr.lower "Work" <> "profile2") by discriminate.
  split; [exact H1|]. split; [exact H2|].
  exact (proj1 (profile_tables_agree "Work") H1 H2).
Defined.

(** ** The "open chrome" branch of the dispatcher *)

Lemma chrome_has_me (s : string) :
  PyStr.contains "chrome" s = true -> PyStr.contains "me" s = true.
Proof.
  rewrite !PyStrFacts.contains_spec. intros [before [after H]].
  exists (before ++ "chro"), after. rewrite H, string_app_assoc. reflexivity.
Qed.

(** The profile the dispatcher reads out of a command is [None] or one
    of "profile 1", "profile 2" and "default": never the empty string and
    never a name outside the alias table, so that the directory launched
    is the one the table gives, not the fallback.  A command that
    contains "chrome" contains "me"; hence, for such a command, the
    profile is [None] exactly when the command mentions none of
    "profile", "amaan" and "work", and a bare "profile" means "default". *)
Theorem dispatcher_profile_is_alias (command_lower : string) :
  In (chrome_profile_of_command command_lower)
     [None; Some "profile 1"; Some "profile 2"; Some "default"] /\
  (PyStr.contains "chrome" command_lower = true ->
   (chrome_profile_of_command command_lower = None <->
    PyStr.contains "profile" command_lower = false /\
    PyStr.contains "amaan" command_lower = false /\
    PyStr.contains "work" command_lower = false)) /\
  (forall p, chrome_profile_of_command command_lower = Some p ->
     In p aliases /\
     exists dir,
       PyDict.get profile_map p = Some dir /\
       forall m w,
         launched (world_of (open_chrome_from_command command_lower m w))
           = (launched w ++ [Shell (chrome_with_profile dir)])%list).
Proof.
  split; [|split].
  - unfold chrome_profile_of_command.
    repeat match goal with
           | |- context [if ?b then _ else _] => destruct b
           end; cbn; tauto.
  - intros Hchrome. apply chrome_has_me in Hchrome.
    unfold chrome_profile_of_command. rewrite Hchrome.
    destruct (PyStr.contains "profile" command_lower),
      (PyStr.contains "amaan" command_lower),
      (PyStr.contains "work" command_lower),
      (PyStr.contains "profile 1" command_lower),
      (PyStr.contains "profile1" command_lower),
      (PyStr.contains "profile 2" command_lower),
      (PyStr.contains "profile2" command_lower),
      (PyStr.contains "default" command_lower);
      cbn [orb];
      (split;
       [ intros H; first [discriminate H | repeat split]
       | intros [H1 [H2 H3]];
         first [discriminate H1 | discriminate H2 | discriminate H3 | reflexivity] ]).
  - intros p Hp.
    assert (Hcases : p = "profile 1" \/ p = "profile 2" \/ p = "default").
    { revert Hp. unfold chrome_profile_of_command.
      repeat match goal with
             | |- context [if ?b then _ else _] => destruct b
             end; intros [= <-]; tauto. }
    unfold open_chrome_from_command. rewrite Hp.
    destruct Hcases as [-> | [-> | ->]];
      (split; [cbn; tauto|]); eexists; (split; [reflexivity|]); intros m w;
      unfold handle_browser_opening, bind, try_except; simpl;
      match goal with
      | |- context [popen w ?c] => destruct (popen w c)
      end; reflexivity.
Qed.

Lemma dispatcher_profile_is_alias_witness :
  PyStr.contains "chrome" "open chrome with my profile" = true /\
  chrome_profile_of_command "open chrome with my profile" = Some "default" /\
  forall m w,
    launched (world_of (open_chrome_from_command "open chrome with my profile" m w))
      = (launched w ++ [Shell (chrome_with_profile "Default")])%list.
Proof.
  split; [reflexivity|]. split; [reflexivity|].
  destruct (dispatcher_profile_is_alias "open chrome with my profile")
    as [_ [_ Hlaunch]].
  destruct (Hlaunch "default" eq_refl) as [_ [dir [Hdir Hrun]]].
  injection Hdir as <-. exact Hrun.
Defined.

(** ** How the calls compose *)

(** [startBrowserOpening] does not look at the manager it is called on:
    on any two managers it returns the same result, leaves the same
    state and [waiting_for] and the same world.  It tells no process to
    terminate, so a browser opened before keeps running. *)
Theorem startBrowserOpening_overrides (browser_name : string) (profile : option string)
  (m1 m2 : WorkflowManager) (w : World) :
  let r1 := handle_browser_opening browser_name profile m1 w in
  let r2 := handle_browser_opening browser_name profile m2 w in
  outcome_of r1 = outcome_of r2 /\
  state (manager_of r1) = state (manager_of r2) /\
  waiting_for (manager_of r1) = waiting_for (manager_of r2) /\
  state_started_at (manager_of r1) = state_started_at (manager_of r2) /\
  world_of r1 = world_of r2 /\
  terminated (world_of r1) = terminated w.
Proof.
  intros r1 r2. subst r1 r2.
  unfold handle_browser_opening, bind, try_except.
  cbn -[PyStr.lower PyStr.truthy String.eqb chrome_with_profile _get_chrome_profile].
  split_run;
    cbn -[PyStr.lower PyStr.truthy String.eqb chrome_with_profile _get_chrome_profile];
    repeat split.
Qed.

(** The task recorded in the Context Store is written by
    [startBrowserOpening] alone, with the browser name as it was passed,
    and no call clears it: not a failed launch, not [cancelWorkflow]. *)
Theorem task_is_never_cleared (op : Operation) (m : WorkflowManager) (w : World) :
  current_task (world_of (perform op m w)) =
  match op with
  | startBrowserOpening browser_name _ => Some ("opening_" ++ browser_name)
  | _ => current_task w
  end.
Proof.
  destruct op as [bn pr | text | site | q pl | | wn st | | |];
    cbn [perform]; rewrite ?void_world.
  - unfold handle_browser_opening, bind, try_except.
    cbn -[PyStr.lower PyStr.truthy String.eqb chrome_with_profile _get_chrome_profile
          String.append].
    split_run; reflexivity.
  - unfold handle_profile_selection, bind, try_except, self.
    destruct (negb (WorkflowState_eqb (state m) PROFILE_SELECTION)); [reflexivity|].
    destruct (PyStr.truthy (PyDict.get profile_map (PyStr.strip (PyStr.lower text))));
      [|reflexivity].
    cbn -[chrome_with_profile].
    repeat (split_run; cbn -[chrome_with_profile]); reflexivity.
  - unfold handle_website_opening, bind. rewrite no_browser_open_eq.
    destruct (negb (state_in (state m) [BROWSER_READY; IDLE]) &&
              match listTabs m w with [] => true | _ => false end); reflexivity.
  - now rewrite handle_search_query_eq.
  - reflexivity.
  - reflexivity.
  - now rewrite (proj2 (is_state_expired_pure m w)).
  - reflexivity.
  - unfold get_help_message, bind, self. destruct (state m); reflexivity.
Qed.

(** "Open chrome", then a profile alias: when Chrome starts,
    [selectProfile] tells exactly the process that [startBrowserOpening]
    started to terminate, and when the second launch succeeds too the
    machine is in [BROWSER_READY] with the alias stored and the new
    process tracked. *)
Theorem open_then_select (text alias : string) (first second : Process)
  (m : WorkflowManager) (w1 w2 : World) :
  In alias aliases ->
  PyStr.lower text = alias ->
  popen w1 (Shell "google-chrome") = Returned first ->
  (forall cmd, popen w2 cmd = Returned second) ->
  let m1 := manager_of (handle_browser_opening "chrome" None m w1) in
  let r := handle_profile_selection text m1 w2 in
  state m1 = PROFILE_SELECTION /\
  terminated (world_of r) = (terminated w2 ++ [first])%list /\
  state (manager_of r) = BROWSER_READY /\
  selected_profile (manager_of r) = Some alias /\
  browser_process (manager_of r) = Some second.
Proof.
  intros Hin Hlower Hfirst Hsecond m1 r.
  assert (Hm1 : state m1 = PROFILE_SELECTION /\ browser_process m1 = Some first).
  { subst m1. unfold handle_browser_opening, bind, try_except. simpl.
    rewrite Hfirst. split; reflexivity. }
  destruct Hm1 as [Hstate Hproc].
  assert (Hdir : exists dir, PyDict.get profile_map alias = Some dir).
  { unfold aliases in Hin. cbn [In] in Hin.
    repeat (destruct Hin as [<- | Hin]; [eexists; reflexivity|]).
    contradiction. }
  destruct Hdir as [dir Hget].
  assert (Hnorm : PyStr.strip (PyStr.lower text) = alias).
  { rewrite Hlower. now apply strip_alias. }
  rewrite <- Hnorm in Hget.
  split; [exact Hstate|]. split.
  - subst r. now apply (handle_profile_selection_terminates text dir).
  - pose proof (handle_profile_selection_resolved text dir m1 w2 Hstate Hget) as Hres.
    cbv zeta in Hres. rewrite Hsecond in Hres.
    destruct Hres as [_ [_ [Hst [Hsel Hbp]]]].
    subst r. rewrite Hnorm in Hsel. auto.
Qed.

Lemma open_then_select_witness :
  let w1 := mkWorld 100 None [] [] (fun _ => Returned 11) (fun _ => Returned tt) [] [] [] in
  let w2 := mkWorld 105 None [] [] (fun _ => Returned 12) (fun _ => Raised "gone") [] [] [] in
  let m1 := manager_of (handle_browser_opening "chrome" None (init None) w1) in
  In "profile 1" aliases /\
  PyStr.lower "Profile 1" = "profile 1" /\
  popen w1 (Shell "google-chrome") = Returned 11 /\
  (forall cmd, popen w2 cmd = Returned 12) /\
  terminated (world_of (handle_profile_selection "Profile 1" m1 w2)) = [11] /\
  browser_process (manager_of (handle_profile_selection "Profile 1" m1 w2)) = Some 12.
Proof.
  intros w1 w2 m1.
  assert (Hin : In "profile 1" aliases) by (cbn; tauto).
  assert (Hsecond : forall cmd, popen w2 cmd = Returned 12) by reflexivity.
  split; [exact Hin|]. split; [reflexivity|]. split; [reflexivity|].
  split; [exact Hsecond|].
  destruct (open_then_select "Profile 1" "profile 1" 11 12 (init None) w1 w2
              Hin eq_refl eq_refl Hsecond) as [_ [Hterm [_ [_ Hproc]]]].
  split; [exact Hterm | exact Hproc].
Defined.
